(** * A shallow embedding of [holdem.py] (class [PokerDecisionModel])

    The Python class keeps one mutable game state per hand; here the state
    is a record threaded explicitly through every method.  Conventions:

    - money amounts and probabilities are Python floats in the source; they
      are modelled as exact rationals ([Q], compared with [==]), so binary
      rounding is abstracted away.  That is the model for statements about
      order, sign, control flow and the records that are kept.  Statements
      about the very number that a computation returns are made over
      binary64 floats instead, in the module [B64], which repeats the code
      that estimates, prices and chooses;
    - a Python [str] is a list of code points ([pystr]); card tokens such
      as "7♦" are two code points long;
    - the entries of [history] are the tuples (actor, action name, amount)
      of the source, with the action name modelled by the constructor of
      [ActionType] that carries that name;
    - an exception is a value of [exn]; a method that can raise returns a
      [result];
    - the module-level generator [random] is modelled by the draws it would
      return: each function that consults it takes the draw (a number that
      [random.random()] returned) as an argument. *)

From Stdlib Require Import QArith Qabs Qround Lqa List String Bool NArith ZArith.
From Stdlib Require Import Lia.
From Stdlib Require Import Floats.
Set Warnings "-inexact-float".
Import ListNotations.
Open Scope Q_scope.

(** ** Enumerations *)

Inductive PlayerType := TIGHT_PASSIVE | LOOSE_AGGRESSIVE | SCAREDY_CAT.

Inductive GameStage := PREFLOP | FLOP | TURN | RIVER | SHOWDOWN | TERMINAL.

Inductive ActionType := FOLD | CHECK | CALL | BET | RAISE | ALL_IN.

Inductive Player := HERO | VILLAIN.

Definition PlayerType_eqb (a b : PlayerType) : bool :=
  match a, b with
  | TIGHT_PASSIVE, TIGHT_PASSIVE
  | LOOSE_AGGRESSIVE, LOOSE_AGGRESSIVE
  | SCAREDY_CAT, SCAREDY_CAT => true
  | _, _ => false
  end.

Definition GameStage_eqb (a b : GameStage) : bool :=
  match a, b with
  | PREFLOP, PREFLOP | FLOP, FLOP | TURN, TURN
  | RIVER, RIVER | SHOWDOWN, SHOWDOWN | TERMINAL, TERMINAL => true
  | _, _ => false
  end.

Definition ActionType_eqb (a b : ActionType) : bool :=
  match a, b with
  | FOLD, FOLD | CHECK, CHECK | CALL, CALL
  | BET, BET | RAISE, RAISE | ALL_IN, ALL_IN => true
  | _, _ => false
  end.

Definition Player_eqb (a b : Player) : bool :=
  match a, b with
  | HERO, HERO | VILLAIN, VILLAIN => true
  | _, _ => false
  end.

(** [x in [a, b, ...]] on enumeration members. *)
Definition action_in (a : ActionType) (l : list ActionType) : bool :=
  existsb (ActionType_eqb a) l.

Definition stage_in (g : GameStage) (l : list GameStage) : bool :=
  existsb (GameStage_eqb g) l.

(** ** Exceptions *)

Inductive exn := IndexError | ValueError | KeyError.

Inductive result (A : Type) : Type :=
| Ok (a : A)
| Raise (e : exn).

Arguments Ok {A} a.
Arguments Raise {A} e.

Definition bind {A B : Type} (r : result A) (k : A -> result B) : result B :=
  match r with
  | Ok a => k a
  | Raise e => Raise e
  end.

Notation "x <- r ;; k" := (bind r (fun x => k))
  (at level 61, r at next level, right associativity).

(** ** Numbers *)

Definition Qltb (a b : Q) : bool := if Qlt_le_dec a b then true else false.
Definition Qleb (a b : Q) : bool := if Qlt_le_dec b a then false else true.
Definition Qeqb (a b : Q) : bool := if Qeq_dec a b then true else false.

(** Python's two-argument [min] keeps its first argument unless the second
    is strictly smaller; [max] keeps the first unless the second is
    strictly larger. *)
Definition pymin (a b : Q) : Q := if Qltb b a then b else a.
Definition pymax (a b : Q) : Q := if Qltb a b then b else a.

(** [sum(values)] *)
Definition pysum (values : list Q) : Q := fold_left Qplus values 0.

(** [len(l)] as a number *)
Definition pylen {A : Type} (l : list A) : Q := inject_Z (Z.of_nat (List.length l)).

(** ** Strings and sequences *)

Definition char := N.
Definition pystr := list char.

(** [l[i]] for a non-negative index. *)
Definition idx {A : Type} (l : list A) (i : nat) : result A :=
  match nth_error l i with
  | Some x => Ok x
  | None => Raise IndexError
  end.

(** [l[-1]] *)
Definition py_last {A : Type} (l : list A) : result A :=
  match rev l with
  | x :: _ => Ok x
  | [] => Raise IndexError
  end.

(** [c in s] for a one-character needle [c]. *)
Definition contains (c : char) (s : pystr) : bool := existsb (N.eqb c) s.

(** [l.index(x)]; [None] stands for the [ValueError] of a missing item. *)
Fixpoint index_of (x : char) (l : list char) : option nat :=
  match l with
  | [] => None
  | y :: l' => if N.eqb x y then Some O else option_map S (index_of x l')
  end.

Module Chars.
Definition c2 : char := 50%N.
Definition c3 : char := 51%N.
Definition c4 : char := 52%N.
Definition c5 : char := 53%N.
Definition c6 : char := 54%N.
Definition c7 : char := 55%N.
Definition c8 : char := 56%N.
Definition c9 : char := 57%N.
Definition cT : char := 84%N.
Definition cJ : char := 74%N.
Definition cQ : char := 81%N.
Definition cK : char := 75%N.
Definition cA : char := 65%N.
Definition spade : char := 9824%N.    (* U+2660 *)
Definition heart : char := 9829%N.    (* U+2665 *)
Definition diamond : char := 9830%N.  (* U+2666 *)
Definition club : char := 9827%N.     (* U+2663 *)
End Chars.

(** ** The game state *)

Definition HistoryEntry : Type := Player * ActionType * Q.

Definition entry_actor (e : HistoryEntry) : Player := fst (fst e).
Definition entry_action (e : HistoryEntry) : ActionType := snd (fst e).
Definition entry_amount (e : HistoryEntry) : Q := snd e.

(** One dictionary of [decision_tree]. *)
Record LogRecord := mkLog {
  log_player : Player;
  log_stage : GameStage;
  log_action : ActionType;
  log_size : Q;
  log_pot : Q;
  log_stack : Q
}.

(** What [community_cards] holds: [start_hand] stores the flop list itself
    and appends [turn] and [river] as single items, whatever they are. *)
Inductive board_item :=
| OneCard (c : pystr)
| CardList (cs : list pystr).

Record State := mkState {
  stage : GameStage;
  pot : Q;
  hero_stack : Q;
  villain_stack : Q;
  position : string;
  hole_cards : list pystr;
  community_cards : list board_item;
  history : list HistoryEntry;
  action_count : Z;
  initial_stack : Q;
  last_bet_amount : Q;
  decision_tree : list LogRecord;
  decision_evs : list Q;
  opponent_type : PlayerType;
  opponent_aggression : Q
}.

Definition set_stage (g : GameStage) (s : State) : State :=
  mkState g (pot s) (hero_stack s) (villain_stack s) (position s)
    (hole_cards s) (community_cards s) (history s) (action_count s)
    (initial_stack s) (last_bet_amount s) (decision_tree s) (decision_evs s)
    (opponent_type s) (opponent_aggression s).

Definition set_pot (p : Q) (s : State) : State :=
  mkState (stage s) p (hero_stack s) (villain_stack s) (position s)
    (hole_cards s) (community_cards s) (history s) (action_count s)
    (initial_stack s) (last_bet_amount s) (decision_tree s) (decision_evs s)
    (opponent_type s) (opponent_aggression s).

Definition set_hero_stack (x : Q) (s : State) : State :=
  mkState (stage s) (pot s) x (villain_stack s) (position s)
    (hole_cards s) (community_cards s) (history s) (action_count s)
    (initial_stack s) (last_bet_amount s) (decision_tree s) (decision_evs s)
    (opponent_type s) (opponent_aggression s).

Definition set_villain_stack (x : Q) (s : State) : State :=
  mkState (stage s) (pot s) (hero_stack s) x (position s)
    (hole_cards s) (community_cards s) (history s) (action_count s)
    (initial_stack s) (last_bet_amount s) (decision_tree s) (decision_evs s)
    (opponent_type s) (opponent_aggression s).

Definition set_history (h : list HistoryEntry) (s : State) : State :=
  mkState (stage s) (pot s) (hero_stack s) (villain_stack s) (position s)
    (hole_cards s) (community_cards s) h (action_count s)
    (initial_stack s) (last_bet_amount s) (decision_tree s) (decision_evs s)
    (opponent_type s) (opponent_aggression s).

Definition set_last_bet_amount (x : Q) (s : State) : State :=
  mkState (stage s) (pot s) (hero_stack s) (villain_stack s) (position s)
    (hole_cards s) (community_cards s) (history s) (action_count s)
    (initial_stack s) x (decision_tree s) (decision_evs s)
    (opponent_type s) (opponent_aggression s).

Definition set_decision_tree (t : list LogRecord) (s : State) : State :=
  mkState (stage s) (pot s) (hero_stack s) (villain_stack s) (position s)
    (hole_cards s) (community_cards s) (history s) (action_count s)
    (initial_stack s) (last_bet_amount s) t (decision_evs s)
    (opponent_type s) (opponent_aggression s).

Definition set_decision_evs (l : list Q) (s : State) : State :=
  mkState (stage s) (pot s) (hero_stack s) (villain_stack s) (position s)
    (hole_cards s) (community_cards s) (history s) (action_count s)
    (initial_stack s) (last_bet_amount s) (decision_tree s) l
    (opponent_type s) (opponent_aggression s).

(** ** [__init__] and [start_hand] *)

Definition init (opponent : PlayerType) (hero_position : string)
    (hero villain : Q) : State :=
  let s := mkState PREFLOP 1.5 hero villain hero_position
             [] [] [] 0%Z hero 0 [] [] opponent 0 in
  if String.eqb hero_position "SB" then
    set_villain_stack (villain_stack s - 1)
      (set_hero_stack (hero_stack s - 0.5) s)
  else if String.eqb hero_position "BB" then
    set_villain_stack (villain_stack s - 0.5)
      (set_hero_stack (hero_stack s - 1) s)
  else s.

(** Truth value of an optional argument: [None] and empty sequences are
    false. *)
Definition truthy_list {A : Type} (o : option (list A)) : bool :=
  match o with
  | Some (_ :: _) => true
  | _ => false
  end.

Definition truthy_item (o : option board_item) : bool :=
  match o with
  | Some (OneCard (_ :: _)) => true
  | Some (CardList (_ :: _)) => true
  | _ => false
  end.

Definition start_hand (s : State) (hero_cards : list pystr)
    (flop : option (list pystr)) (turn river : option board_item) : State :=
  let s0 := mkState PREFLOP 1.5 (hero_stack s) (villain_stack s) (position s)
              hero_cards [] [] 0%Z (hero_stack s) 0 [] []
              (opponent_type s) (opponent_aggression s) in
  let with_board (cc : list board_item) (g : GameStage) (p : Q) (t : State) :=
    mkState g p (hero_stack t) (villain_stack t) (position t)
      (hole_cards t) cc (history t) (action_count t)
      (initial_stack t) (last_bet_amount t) (decision_tree t)
      (decision_evs t) (opponent_type t) (opponent_aggression t) in
  let s1 := match flop with
            | Some cs => if truthy_list flop
                         then with_board (map OneCard cs) FLOP 4.0 s0 else s0
            | None => s0
            end in
  let s2 := match turn with
            | Some t => if truthy_item turn
                        then with_board (community_cards s1 ++ [t]) TURN 8.0 s1
                        else s1
            | None => s1
            end in
  match river with
  | Some r => if truthy_item river
              then with_board (community_cards s2 ++ [r]) RIVER 16.0 s2
              else s2
  | None => s2
  end.

(** ** [opponent_response]

    The dictionary is kept as an association list in insertion order, which
    is the order in which Python iterates over it. *)
Definition opponent_response (s : State) (our_action : ActionType)
  : list (ActionType * Q) :=
  if ActionType_eqb our_action ALL_IN then [(FOLD, 1.0)]
  else match opponent_type s with
       | TIGHT_PASSIVE =>
           if action_in our_action [BET; RAISE]
           then [(FOLD, 0.65); (CALL, 0.30); (RAISE, 0.05)]
           else [(CHECK, 0.80); (BET, 0.20)]
       | LOOSE_AGGRESSIVE =>
           if action_in our_action [BET; RAISE]
           then [(FOLD, 0.10); (CALL, 0.30); (RAISE, 0.60)]
           else [(CHECK, 0.05); (BET, 0.95)]
       | SCAREDY_CAT =>
           if action_in our_action [BET; RAISE]
           then [(FOLD, 0.80); (CALL, 0.19); (RAISE, 0.01)]
           else [(CHECK, 0.90); (BET, 0.10)]
       end.

(** ** [estimate_equity] *)

Definition card_ranks : list char :=
  [Chars.c2; Chars.c3; Chars.c4; Chars.c5; Chars.c6; Chars.c7; Chars.c8;
   Chars.c9; Chars.cT; Chars.cJ; Chars.cQ; Chars.cK; Chars.cA].

(** The body of the loop over the hole cards: the [try] covers both
    [card[0]] and [card_ranks.index], and any failure appends 0.3. *)
Definition rank_value (card : pystr) : Q :=
  match idx card 0 with
  | Ok c =>
      match index_of c card_ranks with
      | Some k => inject_Z (Z.of_nat k) / 12.0
      | None => 0.3
      end
  | Raise _ => 0.3
  end.

(** The dictionary literal [stage_factor], looked up at [self.stage]. *)
Definition stage_factor (g : GameStage) : result Q :=
  match g with
  | PREFLOP => Ok 0.8
  | FLOP => Ok 0.6
  | TURN => Ok 0.4
  | RIVER => Ok 0.2
  | SHOWDOWN => Ok 1.0
  | TERMINAL => Raise KeyError
  end.

Definition estimate_equity (s : State) : result Q :=
  c0 <- idx (hole_cards s) 0 ;;
  pinned <- (if contains Chars.c7 c0
             then c1 <- idx (hole_cards s) 1 ;; Ok (contains Chars.c2 c1)
             else Ok false) ;;
  if (pinned : bool) then Ok 0.05
  else
    let values := map rank_value (hole_cards s) in
    let strength := pysum values / pylen values in
    h0 <- idx (hole_cards s) 0 ;;
    s0 <- idx h0 1 ;;
    h1 <- idx (hole_cards s) 1 ;;
    s1 <- idx h1 1 ;;
    let suited := N.eqb s0 s1 in
    v0 <- idx values 0 ;;
    v1 <- idx values 1 ;;
    let rank_diff := Qabs (v0 - v1) in
    let connected := Qleb rank_diff 0.083 in
    let strength :=
      if suited && connected then strength + 0.15
      else if suited then strength + 0.07
      else if connected then strength + 0.08
      else strength in
    factor <- stage_factor (stage s) ;;
    Ok (pymax 0.05 (pymin 0.95 (strength * factor))).

(** ** [calculate_ev] *)

Definition ev_term (s : State) (bet_size : Q) (ev : Q)
    (resp : ActionType) (prob : Q) : result Q :=
  match resp with
  | FOLD => Ok (ev + prob * pot s)
  | CALL =>
      if GameStage_eqb (stage s) RIVER then
        equity <- estimate_equity s ;;
        let win_amount := pot s + 2 * bet_size in
        Ok (ev + prob * (equity * win_amount - (1 - equity) * bet_size))
      else
        let penalty :=
          if PlayerType_eqb (opponent_type s) LOOSE_AGGRESSIVE
          then 1.3 else 1.0 in
        Ok (ev + prob * (- bet_size * penalty))
  | RAISE =>
      let penalty :=
        if PlayerType_eqb (opponent_type s) LOOSE_AGGRESSIVE
        then 1.5 else 1.0 in
      Ok (ev + prob * (- bet_size * penalty))
  | BET => Ok (ev + prob * 0)
  | _ => Ok ev
  end.

(** The [for resp, prob in resp_probs.items()] loop. *)
Fixpoint ev_loop (s : State) (bet_size : Q)
    (items : list (ActionType * Q)) (ev : Q) : result Q :=
  match items with
  | [] => Ok ev
  | (resp, prob) :: rest =>
      ev' <- ev_term s bet_size ev resp prob ;;
      ev_loop s bet_size rest ev'
  end.

Definition calculate_ev (s : State) (action : ActionType) (bet_size : Q)
  : result Q :=
  if ActionType_eqb action FOLD then Ok 0
  else ev_loop s bet_size (opponent_response s action) 0.

(** ** [get_bluff_action], [can_take_action], [is_bet_in_front] *)

Definition get_bluff_action (s : State) : ActionType * Q :=
  if GameStage_eqb (stage s) PREFLOP then (RAISE, 3.0)
  else match opponent_type s with
       | SCAREDY_CAT => (BET, pot s * 0.4)
       | TIGHT_PASSIVE => (BET, pot s * 0.6)
       | LOOSE_AGGRESSIVE => (BET, pot s * 0.5)
       end.

Definition can_take_action (s : State) (action_type : ActionType) : bool :=
  if action_in action_type [CHECK; FOLD] then true
  else Qltb 0 (hero_stack s).

(** [is_bet_in_front] answers and, when it answers [True], stores the
    amount of the last entry in [last_bet_amount]. *)
Definition is_bet_in_front (s : State) : bool * State :=
  match rev (history s) with
  | [] => (false, s)
  | e :: _ =>
      if Player_eqb (entry_actor e) VILLAIN
         && action_in (entry_action e) [BET; RAISE]
      then (true, set_last_bet_amount (entry_amount e) s)
      else (false, s)
  end.

(** ** [optimal_action]

    [coin] is the value that [random.random()] returns when the branch that
    calls it is taken. *)
Definition optimal_action (coin : Q) (s : State)
  : State * result ((ActionType * Q) * Q) :=
  let (flag, s1) := is_bet_in_front s in
  if flag then
    match py_last (history s1) with
    | Raise e => (s1, Raise e)
    | Ok last_entry =>
        let villain_act := entry_action last_entry in
        let call_amt := pymin (last_bet_amount s1) (hero_stack s1) in
        let raise_amt := pymin (last_bet_amount s1 * 2) (hero_stack s1) in
        let choice :=
          if action_in villain_act [CHECK; CALL] && Qltb 0 raise_amt
          then (RAISE, raise_amt)
          else if Qltb coin 0.7 && Qltb call_amt raise_amt
               then (RAISE, raise_amt)
               else (CALL, call_amt) in
        (s1, ev <- calculate_ev s1 (fst choice) (snd choice) ;;
             Ok (choice, ev))
    end
  else if GameStage_eqb (stage s1) RIVER then
    let bet_size := pymin (pot s1 * 0.5) (hero_stack s1) in
    (s1, ev <- calculate_ev s1 BET bet_size ;; Ok ((BET, bet_size), ev))
  else
    let (action, bet_size0) := get_bluff_action s1 in
    let bet_size := pymin bet_size0 (hero_stack s1) in
    if Qltb 0 bet_size && Qltb 0 (hero_stack s1) then
      (s1, ev <- calculate_ev s1 action bet_size ;;
           Ok ((action, bet_size), ev))
    else
      (s1, ev <- calculate_ev s1 CHECK 0 ;; Ok ((CHECK, 0), ev)).

(** ** [random.choices]

    [random.choices(keys, weights=..., k=1)[0]] as CPython computes it: the
    weights are accumulated, the draw [u] returned by [random()] is scaled
    by their total, and [bisect] yields the first position whose cumulative
    weight is strictly greater, the search stopping before the last
    position.  An empty population raises [IndexError], a total that is not
    positive raises [ValueError]. *)
Fixpoint bisect_keys (items : list (ActionType * Q)) (acc x : Q)
  : result ActionType :=
  match items with
  | [] => Raise IndexError
  | [(k, _)] => Ok k
  | (k, w) :: rest =>
      if Qltb x (acc + w) then Ok k else bisect_keys rest (acc + w) x
  end.

Definition choices (items : list (ActionType * Q)) (u : Q)
  : result ActionType :=
  match items with
  | [] => Raise IndexError
  | _ =>
      let total := pysum (map snd items) in
      if Qleb total 0 then Raise ValueError
      else bisect_keys items 0 (u * total)
  end.

(** ** [execute_action]

    [pick] is the draw consumed by [random.choices]. *)

(** The update of stack and pot for the hero's own action. *)
Definition apply_hero (s : State) (action : ActionType) (bet_size : Q)
  : State :=
  if ActionType_eqb action CALL then
    let call_amount := pymin bet_size (hero_stack s) in
    set_pot (pot s + call_amount)
      (set_hero_stack (hero_stack s - call_amount) s)
  else if action_in action [BET; RAISE; ALL_IN] then
    let bet_amount := pymin bet_size (hero_stack s) in
    set_pot (pot s + bet_amount)
      (set_hero_stack (hero_stack s - bet_amount) s)
  else s.

(** [resp_amount] *)
Definition response_amount (s : State) (resp : ActionType) (bet_size : Q)
  : Q :=
  match resp with
  | CALL => pymin bet_size (villain_stack s)
  | RAISE => pymin (bet_size * 2) (villain_stack s)
  | BET => pymin (pot s * 0.5) (villain_stack s)
  | _ => 0
  end.

(** The update of stack and pot for the villain's response. *)
Definition apply_villain (s : State) (resp : ActionType) (resp_amount : Q)
  : State :=
  match resp with
  | CALL | RAISE | BET =>
      set_pot (pot s + resp_amount)
        (set_villain_stack (villain_stack s - resp_amount) s)
  | _ => s
  end.

Definition log_entry (who : Player) (s : State) (action : ActionType)
    (size stack : Q) : LogRecord :=
  mkLog who (stage s) action size (pot s) stack.

Definition execute_action (pick : Q) (s : State) (action : ActionType)
    (bet_size : Q) : State * result ActionType :=
  let s1 := set_history (history s ++ [(HERO, action, bet_size)]) s in
  let s2 := set_decision_tree
              (decision_tree s1
                 ++ [log_entry HERO s1 action bet_size (hero_stack s1)]) s1 in
  let s3 := apply_hero s2 action bet_size in
  match choices (opponent_response s3 action) pick with
  | Raise e => (s3, Raise e)
  | Ok resp =>
      let resp_amount := response_amount s3 resp bet_size in
      let s4 := set_history (history s3 ++ [(VILLAIN, resp, resp_amount)]) s3 in
      let s5 := set_decision_tree
                  (decision_tree s4
                     ++ [log_entry VILLAIN s4 resp resp_amount
                           (villain_stack s4)]) s4 in
      (apply_villain s5 resp resp_amount, Ok resp)
  end.

(** ** [update_stage] *)

(** The ladder shared by the two advancing branches. *)
Definition advance (s : State) : State :=
  match stage s with
  | PREFLOP => set_stage FLOP s
  | FLOP => set_stage TURN s
  | TURN => set_stage RIVER s
  | RIVER => set_stage SHOWDOWN s
  | _ => s
  end.

(** The final [if]: a stack that is exactly 0 forces the showdown. *)
Definition force_showdown (s : State) : State :=
  if Qeqb (hero_stack s) 0 || Qeqb (villain_stack s) 0
  then set_stage SHOWDOWN s else s.

(** [rev (history s)] starts with [history[-1]] and [history[-2]]. *)
Definition update_stage (s : State) : State :=
  match rev (history s) with
  | e1 :: e2 :: _ =>
      if action_in FOLD [entry_action e2; entry_action e1] then
        set_stage TERMINAL s
      else
        let s1 :=
          if ActionType_eqb (entry_action e2) CHECK
             && ActionType_eqb (entry_action e1) CHECK
          then advance s
          else if ActionType_eqb (entry_action e1) CALL then
                 let (flag, s') := is_bet_in_front s in
                 if negb flag then advance s' else s'
               else s in
        force_showdown s1
  | _ => s
  end.

(** ** [simulate_hand]

    One pass through the body of the [while] loop consumes at most two
    draws: [coin] in [optimal_action] and [pick] in [execute_action].  The
    loop is run on the list of the draws that are available; it yields
    [None] when the list is used up before the hand has ended. *)

Inductive LoopExit :=
| Stopped (s : State) (total_decision_ev : Q) (decision_count : Z).

Definition stack_empty (s : State) : bool :=
  Qeqb (hero_stack s) 0 || Qeqb (villain_stack s) 0.

Fixpoint hand_loop (draws : list (Q * Q)) (s : State)
    (total_decision_ev : Q) (decision_count : Z) : option LoopExit :=
  if stage_in (stage s) [TERMINAL; SHOWDOWN]
  then Some (Stopped s total_decision_ev decision_count)
  else
    match draws with
    | [] => None
    | (coin, pick) :: rest =>
        match optimal_action coin s with
        | (s1, Raise _) =>
            Some (Stopped s1 total_decision_ev decision_count)
        | (s1, Ok ((action, bet_size), ev)) =>
            let total := total_decision_ev + ev in
            let count := (decision_count + 1)%Z in
            let s2 := set_decision_evs (decision_evs s1 ++ [ev]) s1 in
            match execute_action pick s2 action bet_size with
            | (s3, Raise _) => Some (Stopped s3 total count)
            | (s3, Ok resp) =>
                let s4 := update_stage s3 in
                if ActionType_eqb resp FOLD
                then Some (Stopped (set_stage TERMINAL s4) total count)
                else if stack_empty s4
                then Some (Stopped (set_stage SHOWDOWN s4) total count)
                else hand_loop rest s4 total count
            end
        end
    end.

(** The tuple that [simulate_hand] returns. *)
Record HandResult := mkResult {
  winner : string;
  net_profit : Q;
  res_total_ev : Q;
  res_decision_count : Z;
  avg_ev : Q
}.

Definition average_ev (total : Q) (count : Z) : Q :=
  if (0 <? count)%Z then total / inject_Z count else 0.

(** Everything after the loop; [show] is the draw of the showdown. *)
Definition resolve (show : Q) (s : State) (total : Q) (count : Z)
  : State * result HandResult :=
  if GameStage_eqb (stage s) TERMINAL then
    match py_last (history s) with
    | Raise e => (s, Raise e)
    | Ok last_action =>
        let hero_won :=
          Player_eqb (entry_actor last_action) VILLAIN
          && ActionType_eqb (entry_action last_action) FOLD in
        let s' := if hero_won
                  then set_hero_stack (hero_stack s + pot s) s
                  else set_villain_stack (villain_stack s + pot s) s in
        (s', Ok (mkResult (if hero_won then "Hero" else "Villain")
                   (hero_stack s' - initial_stack s')
                   total count (average_ev total count)))
    end
  else
    match estimate_equity s with
    | Raise e => (s, Raise e)
    | Ok hero_equity =>
        let hero_wins := Qltb show hero_equity in
        let s' := if hero_wins
                  then set_hero_stack (hero_stack s + pot s) s
                  else set_villain_stack (villain_stack s + pot s) s in
        (s', Ok (mkResult (if hero_wins then "Hero" else "Villain")
                   (hero_stack s' - initial_stack s')
                   total count (average_ev total count)))
    end.

Definition simulate_hand (draws : list (Q * Q)) (show : Q) (s : State)
  : option (State * result HandResult) :=
  match hand_loop draws s 0 0%Z with
  | None => None
  | Some (Stopped s' total count) => Some (resolve show s' total count)
  end.

(** ** The decision in binary64

    The definitions above compute with exact rationals.  Where a statement
    is about the very number that the code returns, rounding matters: the
    module [B64] repeats the part of the class that prices and chooses an
    action, [is_bet_in_front], [opponent_response], [estimate_equity],
    [calculate_ev], [get_bluff_action] and [optimal_action], with the
    numbers of the source, IEEE 754 binary64 floats rounded to nearest
    even, which are the kernel's primitive floats.  Integers that meet a
    float in the source (the initial [ev = 0], a stack of 100, an index
    divided by 12.0) are the floats of the same value. *)

Module B64.

Local Open Scope float_scope.

Definition HistoryEntry : Type := Player * ActionType * float.

Definition entry_actor (e : HistoryEntry) : Player := fst (fst e).
Definition entry_action (e : HistoryEntry) : ActionType := snd (fst e).
Definition entry_amount (e : HistoryEntry) : float := snd e.

Record LogRecord := mkLog {
  log_player : Player;
  log_stage : GameStage;
  log_action : ActionType;
  log_size : float;
  log_pot : float;
  log_stack : float
}.

Record State := mkState {
  stage : GameStage;
  pot : float;
  hero_stack : float;
  villain_stack : float;
  position : string;
  hole_cards : list pystr;
  community_cards : list board_item;
  history : list HistoryEntry;
  action_count : Z;
  initial_stack : float;
  last_bet_amount : float;
  decision_tree : list LogRecord;
  decision_evs : list float;
  opponent_type : PlayerType;
  opponent_aggression : float
}.

Definition set_last_bet_amount (x : float) (s : State) : State :=
  mkState (stage s) (pot s) (hero_stack s) (villain_stack s) (position s)
    (hole_cards s) (community_cards s) (history s) (action_count s)
    (initial_stack s) x (decision_tree s) (decision_evs s)
    (opponent_type s) (opponent_aggression s).

Definition set_hero_stack (x : float) (s : State) : State :=
  mkState (stage s) (pot s) x (villain_stack s) (position s)
    (hole_cards s) (community_cards s) (history s) (action_count s)
    (initial_stack s) (last_bet_amount s) (decision_tree s) (decision_evs s)
    (opponent_type s) (opponent_aggression s).

Definition set_villain_stack (x : float) (s : State) : State :=
  mkState (stage s) (pot s) (hero_stack s) x (position s)
    (hole_cards s) (community_cards s) (history s) (action_count s)
    (initial_stack s) (last_bet_amount s) (decision_tree s) (decision_evs s)
    (opponent_type s) (opponent_aggression s).

Definition init (opponent : PlayerType) (hero_position : string)
    (hero villain : float) : State :=
  let s := mkState PREFLOP 1.5 hero villain hero_position
             [] [] [] 0%Z hero 0 [] [] opponent 0.0 in
  if String.eqb hero_position "SB" then
    set_villain_stack (villain_stack s - 1)
      (set_hero_stack (hero_stack s - 0.5) s)
  else if String.eqb hero_position "BB" then
    set_villain_stack (villain_stack s - 0.5)
      (set_hero_stack (hero_stack s - 1) s)
  else s.

Definition start_hand (s : State) (hero_cards : list pystr)
    (flop : option (list pystr)) (turn river : option board_item) : State :=
  let s0 := mkState PREFLOP 1.5 (hero_stack s) (villain_stack s) (position s)
              hero_cards [] [] 0%Z (hero_stack s) 0 [] []
              (opponent_type s) (opponent_aggression s) in
  let with_board (cc : list board_item) (g : GameStage) (p : float)
      (t : State) :=
    mkState g p (hero_stack t) (villain_stack t) (position t)
      (hole_cards t) cc (history t) (action_count t)
      (initial_stack t) (last_bet_amount t) (decision_tree t)
      (decision_evs t) (opponent_type t) (opponent_aggression t) in
  let s1 := match flop with
            | Some cs => if truthy_list flop
                         then with_board (map OneCard cs) FLOP 4.0 s0 else s0
            | None => s0
            end in
  let s2 := match turn with
            | Some t => if truthy_item turn
                        then with_board (community_cards s1 ++ [t]) TURN 8.0 s1
                        else s1
            | None => s1
            end in
  match river with
  | Some r => if truthy_item river
              then with_board (community_cards s2 ++ [r]) RIVER 16.0 s2
              else s2
  | None => s2
  end.

(** Python's [min] and [max] on two floats, with the tie rules of the
    exact versions. *)
Definition pymin (a b : float) : float := if b <? a then b else a.
Definition pymax (a b : float) : float := if a <? b then b else a.

(** The float of a small natural number. *)
Definition of_nat (k : nat) : float :=
  PrimFloat.of_uint63 (Uint63.of_Z (Z.of_nat k)).

(** [sum(values)], which starts from the integer 0. *)
Definition pysum (values : list float) : float :=
  fold_left PrimFloat.add values 0.

Definition opponent_response (s : State) (our_action : ActionType)
  : list (ActionType * float) :=
  if ActionType_eqb our_action ALL_IN then [(FOLD, 1.0)]
  else match opponent_type s with
       | TIGHT_PASSIVE =>
           if action_in our_action [BET; RAISE]
           then [(FOLD, 0.65); (CALL, 0.30); (RAISE, 0.05)]
           else [(CHECK, 0.80); (BET, 0.20)]
       | LOOSE_AGGRESSIVE =>
           if action_in our_action [BET; RAISE]
           then [(FOLD, 0.10); (CALL, 0.30); (RAISE, 0.60)]
           else [(CHECK, 0.05); (BET, 0.95)]
       | SCAREDY_CAT =>
           if action_in our_action [BET; RAISE]
           then [(FOLD, 0.80); (CALL, 0.19); (RAISE, 0.01)]
           else [(CHECK, 0.90); (BET, 0.10)]
       end.

Definition rank_value (card : pystr) : float :=
  match idx card 0 with
  | Ok c =>
      match index_of c card_ranks with
      | Some k => of_nat k / 12.0
      | None => 0.3
      end
  | Raise _ => 0.3
  end.

Definition stage_factor (g : GameStage) : result float :=
  match g with
  | PREFLOP => Ok 0.8
  | FLOP => Ok 0.6
  | TURN => Ok 0.4
  | RIVER => Ok 0.2
  | SHOWDOWN => Ok 1.0
  | TERMINAL => Raise KeyError
  end.

Definition estimate_equity (s : State) : result float :=
  c0 <- idx (hole_cards s) 0 ;;
  pinned <- (if contains Chars.c7 c0
             then c1 <- idx (hole_cards s) 1 ;; Ok (contains Chars.c2 c1)
             else Ok false) ;;
  if (pinned : bool) then Ok 0.05
  else
    let values := map rank_value (hole_cards s) in
    let strength := pysum values / of_nat (List.length values) in
    h0 <- idx (hole_cards s) 0 ;;
    s0 <- idx h0 1 ;;
    h1 <- idx (hole_cards s) 1 ;;
    s1 <- idx h1 1 ;;
    let suited := N.eqb s0 s1 in
    v0 <- idx values 0 ;;
    v1 <- idx values 1 ;;
    let rank_diff := PrimFloat.abs (v0 - v1) in
    let connected := rank_diff <=? 0.083 in
    let strength :=
      if suited && connected then strength + 0.15
      else if suited then strength + 0.07
      else if connected then strength + 0.08
      else strength in
    factor <- stage_factor (stage s) ;;
    Ok (pymax 0.05 (pymin 0.95 (strength * factor))).

Definition ev_term (s : State) (bet_size : float) (ev : float)
    (resp : ActionType) (prob : float) : result float :=
  match resp with
  | FOLD => Ok (ev + prob * pot s)
  | CALL =>
      if GameStage_eqb (stage s) RIVER then
        equity <- estimate_equity s ;;
        let win_amount := pot s + 2 * bet_size in
        Ok (ev + prob * (equity * win_amount - (1 - equity) * bet_size))
      else
        let penalty :=
          if PlayerType_eqb (opponent_type s) LOOSE_AGGRESSIVE
          then 1.3 else 1.0 in
        Ok (ev + prob * (- bet_size * penalty))
  | RAISE =>
      let penalty :=
        if PlayerType_eqb (opponent_type s) LOOSE_AGGRESSIVE
        then 1.5 else 1.0 in
      Ok (ev + prob * (- bet_size * penalty))
  | BET => Ok (ev + prob * 0)
  | _ => Ok ev
  end.

Fixpoint ev_loop (s : State) (bet_size : float)
    (items : list (ActionType * float)) (ev : float) : result float :=
  match items with
  | [] => Ok ev
  | (resp, prob) :: rest =>
      ev' <- ev_term s bet_size ev resp prob ;;
      ev_loop s bet_size rest ev'
  end.

Definition calculate_ev (s : State) (action : ActionType)
    (bet_size : float) : result float :=
  if ActionType_eqb action FOLD then Ok 0
  else ev_loop s bet_size (opponent_response s action) 0.

Definition get_bluff_action (s : State) : ActionType * float :=
  if GameStage_eqb (stage s) PREFLOP then (RAISE, 3.0)
  else match opponent_type s with
       | SCAREDY_CAT => (BET, pot s * 0.4)
       | TIGHT_PASSIVE => (BET, pot s * 0.6)
       | LOOSE_AGGRESSIVE => (BET, pot s * 0.5)
       end.

Definition is_bet_in_front (s : State) : bool * State :=
  match rev (history s) with
  | [] => (false, s)
  | e :: _ =>
      if Player_eqb (entry_actor e) VILLAIN
         && action_in (entry_action e) [BET; RAISE]
      then (true, set_last_bet_amount (entry_amount e) s)
      else (false, s)
  end.

Definition optimal_action (coin : float) (s : State)
  : State * result ((ActionType * float) * float) :=
  let (flag, s1) := is_bet_in_front s in
  if flag then
    match py_last (history s1) with
    | Raise e => (s1, Raise e)
    | Ok last_entry =>
        let villain_act := entry_action last_entry in
        let call_amt := pymin (last_bet_amount s1) (hero_stack s1) in
        let raise_amt := pymin (last_bet_amount s1 * 2) (hero_stack s1) in
        let choice :=
          if action_in villain_act [CHECK; CALL] && (0 <? raise_amt)
          then (RAISE, raise_amt)
          else if (coin <? 0.7) && (call_amt <? raise_amt)
               then (RAISE, raise_amt)
               else (CALL, call_amt) in
        (s1, ev <- calculate_ev s1 (fst choice) (snd choice) ;;
             Ok (choice, ev))
    end
  else if GameStage_eqb (stage s1) RIVER then
    let bet_size := pymin (pot s1 * 0.5) (hero_stack s1) in
    (s1, ev <- calculate_ev s1 BET bet_size ;; Ok ((BET, bet_size), ev))
  else
    let (action, bet_size0) := get_bluff_action s1 in
    let bet_size := pymin bet_size0 (hero_stack s1) in
    if (0 <? bet_size) && (0 <? hero_stack s1) then
      (s1, ev <- calculate_ev s1 action bet_size ;;
           Ok ((action, bet_size), ev))
    else
      (s1, ev <- calculate_ev s1 CHECK 0 ;; Ok ((CHECK, 0), ev)).

Close Scope float_scope.

End B64.

(** ** Notions used in the statements *)

(** The hole cards and the opening state of the first scenario. *)
Definition seven_diamonds : pystr := [Chars.c7; Chars.diamond].
Definition two_clubs : pystr := [Chars.c2; Chars.club].

Definition scenario_A : State :=
  start_hand (init SCAREDY_CAT "BTN" 100 100)
    [seven_diamonds; two_clubs] None None None.

(** The same opening state with the numbers of the source. *)
Definition scenario_A_b64 : B64.State :=
  B64.start_hand (B64.init SCAREDY_CAT "BTN" 100 100)
    [seven_diamonds; two_clubs] None None None.

(** The float that [calculate_ev] returns for (RAISE, 3.0) in the first
    scenario: the sum is accumulated from 0, one response after another in
    the order of the table, each term rounded as it is added.  It prints as
    0.6000000000000001 and is the float next above the literal 0.60. *)
Definition scenario_A_ev : float :=
  (0 + 0.80 * 1.5 + 0.19 * (- 3.0 * 1.0) + 0.01 * (- 3.0 * 1.0))%float.

(** What the villain's response asks for before it is clamped to the
    villain's stack: the first argument of the [min] in [resp_amount]. *)
Definition requested (s : State) (resp : ActionType) (bet_size : Q) : Q :=
  match resp with
  | CALL => bet_size
  | RAISE => bet_size * 2
  | BET => pot s * 0.5
  | _ => 0
  end.

(** Ace-king offsuit, a hand that the pin of [estimate_equity] does not
    concern. *)
Definition ace_spades : pystr := [Chars.cA; Chars.spade].
Definition king_hearts : pystr := [Chars.cK; Chars.heart].

(** A state that holds [cards] at stage [g], otherwise as [__init__]
    leaves it on the button with stacks of 100. *)
Definition state_with (opponent : PlayerType) (g : GameStage)
    (cards : list pystr) : State :=
  set_stage g (start_hand (init opponent "BTN" 100 100) cards None None None).

(** The ladder PREFLOP, FLOP, TURN, RIVER, SHOWDOWN as a function of the
    stage; [advance] assigns it to the state. *)
Definition next_stage (g : GameStage) : GameStage :=
  match g with
  | PREFLOP => FLOP
  | FLOP => TURN
  | TURN => RIVER
  | RIVER => SHOWDOWN
  | other => other
  end.

(** The most recent entry of the history that the hero made. *)
Definition last_hero_entry (h : list HistoryEntry) : option HistoryEntry :=
  find (fun e => Player_eqb (entry_actor e) HERO) (rev h).

(** Actors and action names of the history, without the amounts. *)
Definition moves (s : State) : list (Player * ActionType) :=
  map fst (history s).

(** The state in which [update_stage] is called during a pass of the loop
    of [simulate_hand]: [optimal_action] has chosen, the expected value is
    recorded and [execute_action] has run. *)
Definition before_update (coin pick : Q) (s : State) : State :=
  match optimal_action coin s with
  | (s1, Ok ((action, bet_size), ev)) =>
      fst (execute_action pick
             (set_decision_evs (decision_evs s1 ++ [ev]) s1) action bet_size)
  | (s1, Raise _) => s1
  end.

(** A hand against SCAREDY_CAT in which the hero opens with the raise of
    3.0, is re-raised, and then calls the re-raise, the villain answering
    the call with a check.  [after_call_check] is the state in which
    [update_stage] is then called. *)
Definition after_reraise : State :=
  update_stage (before_update 0 0.995 scenario_A).

Definition after_call_check : State := before_update 0.9 0 after_reraise.

(** The same opening raise, called by the villain. *)
Definition after_raise_call : State := before_update 0 0.9 scenario_A.

(** A hero with exactly 3.0 behind puts it all in with the opening raise,
    and the villain folds. *)
Definition short_stack_start : State :=
  start_hand (init SCAREDY_CAT "BTN" 3 100)
    [seven_diamonds; two_clubs] None None None.

Definition after_shove_fold : State := before_update 0 0 short_stack_start.

(** The states in which a method of the class, or a pass through the loop
    of [simulate_hand], starts: the states built by [__init__] and
    [start_hand], the state at the head of the loop after a pass that did
    not leave it, and the state that [simulate_hand] leaves behind. *)
Inductive reachable : State -> Prop :=
| reach_init : forall opponent hero_position hero villain,
    reachable (init opponent hero_position hero villain)
| reach_start_hand : forall s cards flop turn river,
    reachable s -> reachable (start_hand s cards flop turn river)
| reach_decision : forall s coin pick s1 action bet_size ev s3 resp,
    reachable s ->
    stage_in (stage s) [TERMINAL; SHOWDOWN] = false ->
    optimal_action coin s = (s1, Ok ((action, bet_size), ev)) ->
    execute_action pick (set_decision_evs (decision_evs s1 ++ [ev]) s1)
      action bet_size = (s3, Ok resp) ->
    ActionType_eqb resp FOLD = false ->
    stack_empty (update_stage s3) = false ->
    reachable (update_stage s3)
| reach_simulate_hand : forall s draws show s' r,
    reachable s ->
    simulate_hand draws show s = Some (s', r) ->
    reachable s'.

(** A hand that starts on the river, as the first example of the driver
    does, with two hole-card tokens that lack their suit character. *)
Definition river_board : board_item :=
  CardList [[Chars.cA; Chars.club]; [Chars.cK; Chars.diamond];
            [Chars.c5; Chars.heart]; [Chars.c8; Chars.spade];
            [Chars.c2; Chars.diamond]].

Definition suitless_river : State :=
  start_hand (init SCAREDY_CAT "BTN" 100 100)
    [[Chars.cA]; [Chars.cK]] None None (Some river_board).

(** What [simulate_hand] relies on when it reads the last entry of the
    history at stage TERMINAL. *)
Definition folded_by_villain (s : State) : Prop :=
  stage s = TERMINAL ->
  exists amount, py_last (history s) = Ok (VILLAIN, FOLD, amount).

(** ** Notions used in the further properties *)


(** The float that [calculate_ev] accumulates for a BET or RAISE of size
    [b] before the river: from 0, the FOLD term, then the CALL term, then
    the RAISE term, in the order of the response table, with the penalties
    of the opponent type. *)
Definition ev_before_river (opponent : PlayerType) (pot b : float) : float :=
  match opponent with
  | TIGHT_PASSIVE =>
      0 + 0.65 * pot + 0.30 * (- b * 1.0) + 0.05 * (- b * 1.0)
  | LOOSE_AGGRESSIVE =>
      0 + 0.10 * pot + 0.30 * (- b * 1.3) + 0.60 * (- b * 1.5)
  | SCAREDY_CAT =>
      0 + 0.80 * pot + 0.19 * (- b * 1.0) + 0.01 * (- b * 1.0)
  end%float.

(** The value of a member of [GameStage]. *)
Definition stage_value (g : GameStage) : Z :=
  match g with
  | PREFLOP => 0
  | FLOP => 1
  | TURN => 2
  | RIVER => 3
  | SHOWDOWN => 4
  | TERMINAL => 5
  end.

(** No negative amount anywhere: pot, stacks and recorded amounts. *)
Definition nonneg_state (s : State) : Prop :=
  0 <= pot s /\ 0 <= hero_stack s /\ 0 <= villain_stack s
  /\ Forall (fun e => 0 <= entry_amount e) (history s).

(** Two hole-card tokens of at least two characters each. *)
Definition two_full_tokens (cards : list pystr) : Prop :=
  exists c0 c1, cards = [c0; c1]
                /\ (2 <= List.length c0)%nat /\ (2 <= List.length c1)%nat.

(** The test that pins a hand to 0.05, for the cards in this order. *)
Definition pinned_pair (c0 c1 : pystr) : bool :=
  contains Chars.c7 c0 && contains Chars.c2 c1.

(** Two outcomes agree: the same number, or the same exception. *)
Definition same_outcome (a b : result Q) : Prop :=
  match a, b with
  | Ok x, Ok y => x == y
  | Raise e, Raise e' => e = e'
  | _, _ => False
  end.

(** The strength of two hole cards after the bonus of [estimate_equity],
    for cards that are suited or not and of the same rank or not. *)
Definition with_bonus (suited paired : bool) (strength : float) : float :=
  (if suited && paired then strength + 0.15
   else if suited then strength + 0.07
   else if paired then strength + 0.08
   else strength)%float.

(** Ace-king offsuit before the flop, with the numbers of the source. *)
Definition ace_king_b64 : B64.State :=
  B64.start_hand (B64.init TIGHT_PASSIVE "BTN" 100 100)
    [ace_spades; king_hearts] None None None.

(** [t] differs from [s] at most in the stage, the board, the position
    and [last_bet_amount]: money, history, cards and logs are the same. *)
Definition same_table (s t : State) : Prop :=
  pot t = pot s /\ hero_stack t = hero_stack s
  /\ villain_stack t = villain_stack s
  /\ history t = history s /\ hole_cards t = hole_cards s
  /\ decision_evs t = decision_evs s /\ decision_tree t = decision_tree s
  /\ opponent_type t = opponent_type s
  /\ initial_stack t = initial_stack s.

(** One pass through the body of the loop of [simulate_hand] that reaches
    [update_stage]: from [s], the hero's decision is worth [ev], the
    villain answers [resp], and [s4] is the state after [update_stage]. *)
Inductive loop_pass (s : State) (ev : Q) (resp : ActionType) (s4 : State)
  : Prop :=
| loop_pass_intro : forall coin pick s1 action bet_size s3,
    stage_in (stage s) [TERMINAL; SHOWDOWN] = false ->
    optimal_action coin s = (s1, Ok ((action, bet_size), ev)) ->
    execute_action pick (set_decision_evs (decision_evs s1 ++ [ev]) s1)
      action bet_size = (s3, Ok resp) ->
    s4 = update_stage s3 ->
    loop_pass s ev resp s4.

(** A pass that is cut short by a failure of [optimal_action]; [s1] is the
    state that the handler finds. *)
Definition loop_fail (s s1 : State) : Prop :=
  exists coin e,
    stage_in (stage s) [TERMINAL; SHOWDOWN] = false
    /\ optimal_action coin s = (s1, Raise e).


(** Draws for a hand from [scenario_A] in which the villain calls the
    opening raise and the bet on the flop, and folds to the bet on the
    turn. *)
Definition sample_draws : list (Q * Q) :=
  [(0, 0.9); (0, 0.95); (0, 0.5); (0, 0)].

(** * Properties *)

(** ** Comparisons and [min] *)

Lemma Qltb_true (a b : Q) : Qltb a b = true <-> a < b.
Proof.
  unfold Qltb; destruct (Qlt_le_dec a b); split; intros; auto; try discriminate;
    try lra.
Qed.

Lemma Qltb_false (a b : Q) : Qltb a b = false <-> b <= a.
Proof.
  unfold Qltb; destruct (Qlt_le_dec a b); split; intros; auto; try discriminate;
    try lra.
Qed.

Lemma Qleb_true (a b : Q) : Qleb a b = true <-> a <= b.
Proof.
  unfold Qleb; destruct (Qlt_le_dec b a); split; intros; auto; try discriminate;
    try lra.
Qed.

Lemma Qeqb_true (a b : Q) : Qeqb a b = true <-> a == b.
Proof.
  unfold Qeqb; destruct (Qeq_dec a b); split; intros; auto; try discriminate;
    try contradiction.
Qed.

Lemma Qeqb_false (a b : Q) : Qeqb a b = false <-> ~ a == b.
Proof.
  unfold Qeqb; destruct (Qeq_dec a b); split; intros; auto; try discriminate;
    try contradiction.
Qed.

(** [pymin a b] is [b] when [b < a] and is [a] itself otherwise. *)
Lemma pymin_cases (a b : Q) :
  (b < a /\ pymin a b = b) \/ (a <= b /\ pymin a b = a).
Proof.
  unfold pymin. destruct (Qltb b a) eqn:E.
  - left. apply Qltb_true in E. auto.
  - right. apply Qltb_false in E. auto.
Qed.

Lemma pymin_le_l (a b : Q) : pymin a b <= a.
Proof. destruct (pymin_cases a b) as [[H ->] | [H ->]]; lra. Qed.

Lemma pymin_le_r (a b : Q) : pymin a b <= b.
Proof. destruct (pymin_cases a b) as [[H ->] | [H ->]]; lra. Qed.

Lemma pymin_nonneg (a b : Q) : 0 <= a -> 0 <= b -> 0 <= pymin a b.
Proof. intros; destruct (pymin_cases a b) as [[H1 ->] | [H1 ->]]; lra. Qed.

Lemma pymin_clamped (a b : Q) : b < a -> pymin a b = b.
Proof. intros; destruct (pymin_cases a b) as [[H1 ->] | [H1 H2]]; [easy | lra]. Qed.

Lemma pymin_keeps (a b : Q) : a <= b -> pymin a b = a.
Proof. intros; destruct (pymin_cases a b) as [[H1 H2] | [H1 ->]]; [lra | easy]. Qed.

(** Case analysis on every [min] of the goal. *)
Ltac split_pymin :=
  repeat match goal with
    | |- context [pymin ?a ?b] =>
        let H := fresh "Hmin" in
        let E := fresh "Emin" in
        destruct (pymin_cases a b) as [[H E] | [H E]];
        rewrite E in *
    end.

(** ** [is_bet_in_front] *)

(** The flag only changes [last_bet_amount], and only when it is raised. *)
Lemma is_bet_in_front_false (s : State) :
  fst (is_bet_in_front s) = false -> is_bet_in_front s = (false, s).
Proof.
  unfold is_bet_in_front. destruct (rev (history s)) as [| e l]; auto.
  destruct (Player_eqb (entry_actor e) VILLAIN
            && action_in (entry_action e) [BET; RAISE]); auto.
  discriminate.
Qed.

(** When the flag is raised, the last entry of the history is a BET or a
    RAISE of the villain, and its amount is copied to [last_bet_amount]. *)
Lemma is_bet_in_front_true (s : State) :
  fst (is_bet_in_front s) = true ->
  exists e, py_last (history s) = Ok e
            /\ entry_actor e = VILLAIN
            /\ (entry_action e = BET \/ entry_action e = RAISE)
            /\ is_bet_in_front s = (true, set_last_bet_amount (entry_amount e) s).
Proof.
  unfold is_bet_in_front, py_last.
  destruct (rev (history s)) as [| e l]; [discriminate |].
  destruct (Player_eqb (entry_actor e) VILLAIN) eqn:Ea; cbn [andb fst];
    [| discriminate].
  destruct (action_in (entry_action e) [BET; RAISE]) eqn:Eb; cbn [fst];
    [| discriminate].
  intros _. exists e. split; [reflexivity |]. split; [| split].
  - destruct (entry_actor e); [discriminate | reflexivity].
  - destruct (entry_action e); try discriminate; auto.
  - reflexivity.
Qed.

(** ** Scenario A *)

(** Order of binary64 floats, read off the specification of the
    comparisons: at or above a positive finite float means not below it
    and above zero. *)
Lemma SF_above_positive (m0 : positive) (e0 : Z) (y : spec_float) :
  SFleb (S754_finite false m0 e0) y = true ->
  SFltb y (S754_finite false m0 e0) = false
  /\ SFltb (S754_zero false) y = true.
Proof.
  destruct y as [sg | sg | | sg m e];
    unfold SFleb, SFltb, SFcompare; try (destruct sg); try discriminate;
    try (split; reflexivity).
  rewrite (Z.compare_antisym e e0).
  destruct (e ?= e0)%Z; cbn [CompOpp]; try discriminate;
    try (split; reflexivity).
  change (PosDef.Pos.compare_cont Eq m0 m) with (Pos.compare m0 m).
  change (PosDef.Pos.compare_cont Eq m m0) with (Pos.compare m m0).
  rewrite (Pos.compare_antisym m m0).
  destruct (Pos.compare m m0); cbn [CompOpp];
    try discriminate; split; reflexivity.
Qed.

Lemma b64_at_least_three (x : float) :
  (3.0 <=? x)%float = true ->
  (x <? 3.0)%float = false /\ (0 <? x)%float = true.
Proof.
  rewrite leb_spec, !ltb_spec.
  replace (Prim2SF 3.0) with (S754_finite false 6755399441055744 (-51))
    by reflexivity.
  replace (Prim2SF 0) with (S754_zero false) by reflexivity.
  apply SF_above_positive.
Qed.

Lemma b64_is_bet_in_front_false (s : B64.State) :
  fst (B64.is_bet_in_front s) = false -> B64.is_bet_in_front s = (false, s).
Proof.
  unfold B64.is_bet_in_front. destruct (rev (B64.history s)) as [| e l].
  - reflexivity.
  - destruct (Player_eqb (B64.entry_actor e) VILLAIN
              && action_in (B64.entry_action e) [BET; RAISE]).
    + discriminate.
    + reflexivity.
Qed.

(** With exact rationals in place of floats the expected value of the
    first scenario is 0.60, the number of the hand calculation
    0.80 * 1.5 + 0.19 * (-3.0) + 0.01 * (-3.0). *)
Lemma scenario_A_exact (coin : Q) (s : State) :
  opponent_type s = SCAREDY_CAT ->
  stage s = PREFLOP ->
  pot s == 1.5 ->
  3.0 <= hero_stack s ->
  fst (is_bet_in_front s) = false ->
  exists ev,
    optimal_action coin s = (s, Ok ((RAISE, 3.0), ev))
    /\ calculate_ev s RAISE 3.0 = Ok ev
    /\ ev == 0.60.
Proof.
  intros Hopp Hstage Hpot Hstack Hflag.
  assert (Hev : calculate_ev s RAISE 3.0
                = Ok (0 + 0.80 * pot s + 0.19 * (- 3.0 * 1.0)
                        + 0.01 * (- 3.0 * 1.0))).
  { unfold calculate_ev, opponent_response. rewrite Hopp.
    simpl. unfold ev_term. rewrite Hstage, Hopp. reflexivity. }
  eexists. split; [| split; [exact Hev | rewrite Hpot; lra]].
  unfold optimal_action. rewrite (is_bet_in_front_false s Hflag).
  rewrite Hstage. cbn [GameStage_eqb].
  unfold get_bluff_action. rewrite Hstage. cbn [GameStage_eqb].
  rewrite (pymin_keeps 3.0 (hero_stack s) Hstack).
  assert (H1 : Qltb 0 3.0 = true) by reflexivity.
  assert (H2 : Qltb 0 (hero_stack s) = true) by (apply Qltb_true; lra).
  rewrite H1, H2. cbn [andb]. rewrite Hev. reflexivity.
Qed.

(** C1, as the code computes it.  Against SCAREDY_CAT, before the flop,
    with a pot of 1.5, a hero stack of at least 3.0, hole cards 7♦ 2♣ and
    no bet in front, [optimal_action] returns RAISE of size 3.0 together
    with the expected value that [calculate_ev] computes for (RAISE, 3.0).
    That value is the binary64 result of
    0.80 * 1.5 + 0.19 * (-3.0) + 0.01 * (-3.0), accumulated from 0 in the
    order of the response table: the float 0.6000000000000001, which is
    the float next above 0.60 and not equal to it. *)
Theorem C1_scenario_A (coin : float) (s : B64.State) :
  B64.opponent_type s = SCAREDY_CAT ->
  B64.stage s = PREFLOP ->
  B64.pot s = 1.5%float ->
  (3.0 <=? B64.hero_stack s)%float = true ->
  B64.hole_cards s = [seven_diamonds; two_clubs] ->
  fst (B64.is_bet_in_front s) = false ->
  B64.optimal_action coin s = (s, Ok ((RAISE, 3.0%float), scenario_A_ev))
  /\ B64.calculate_ev s RAISE 3.0 = Ok scenario_A_ev
  /\ scenario_A_ev = 0.6000000000000001%float
  /\ scenario_A_ev = next_up 0.60
  /\ (scenario_A_ev =? 0.60)%float = false.
Proof.
  intros Hopp Hstage Hpot Hstack _ Hflag.
  destruct (b64_at_least_three _ Hstack) as [Hlt Hpos].
  assert (Hev : B64.calculate_ev s RAISE 3.0 = Ok scenario_A_ev).
  { unfold B64.calculate_ev, B64.opponent_response. rewrite Hopp.
    cbn [ActionType_eqb action_in existsb orb B64.ev_loop bind].
    unfold B64.ev_term. rewrite Hstage, Hopp, Hpot.
    cbn [GameStage_eqb PlayerType_eqb bind]. reflexivity. }
  split; [| split; [exact Hev | repeat split; vm_compute; reflexivity]].
  unfold B64.optimal_action. rewrite (b64_is_bet_in_front_false s Hflag).
  rewrite Hstage. cbn [GameStage_eqb].
  unfold B64.get_bluff_action. rewrite Hstage. cbn [GameStage_eqb].
  unfold B64.pymin. rewrite Hlt, Hpos.
  replace (0 <? 3.0)%float with true by (vm_compute; reflexivity).
  cbn [andb]. rewrite Hev. reflexivity.
Qed.

Lemma C1_scenario_A_witness :
  B64.optimal_action 0.5 scenario_A_b64
    = (scenario_A_b64, Ok ((RAISE, 3.0%float), scenario_A_ev))
  /\ B64.calculate_ev scenario_A_b64 RAISE 3.0 = Ok scenario_A_ev
  /\ scenario_A_ev = 0.6000000000000001%float
  /\ scenario_A_ev = next_up 0.60
  /\ (scenario_A_ev =? 0.60)%float = false.
Proof.
  apply (C1_scenario_A 0.5 scenario_A_b64); vm_compute; reflexivity.
Defined.

(** In the first scenario itself the expected value that the code returns
    is not 0.60: the two floats differ. *)
Lemma C1_counterexample :
  B64.opponent_type scenario_A_b64 = SCAREDY_CAT
  /\ B64.stage scenario_A_b64 = PREFLOP
  /\ B64.pot scenario_A_b64 = 1.5%float
  /\ (3.0 <=? B64.hero_stack scenario_A_b64)%float = true
  /\ B64.hole_cards scenario_A_b64 = [seven_diamonds; two_clubs]
  /\ fst (B64.is_bet_in_front scenario_A_b64) = false
  /\ exists ev,
       B64.optimal_action 0.5 scenario_A_b64
         = (scenario_A_b64, Ok ((RAISE, 3.0%float), ev))
       /\ B64.calculate_ev scenario_A_b64 RAISE 3.0 = Ok ev
       /\ (ev =? 0.60)%float = false
       /\ ev <> 0.60%float.
Proof.
  repeat (split; [vm_compute; reflexivity |]).
  exists scenario_A_ev.
  repeat (split; [vm_compute; reflexivity |]).
  intro H. assert (E : (scenario_A_ev =? 0.60)%float = true).
  { rewrite H. vm_compute. reflexivity. }
  vm_compute in E. discriminate E.
Qed.

(** ** The sampled response *)

(** [random.choices] never fails on a table of [opponent_response], and the
    label it returns is a key of that table. *)
Lemma choices_response (s : State) (action : ActionType) (u : Q) :
  exists resp,
    choices (opponent_response s action) u = Ok resp
    /\ In resp (map fst (opponent_response s action)).
Proof.
  unfold opponent_response.
  destruct action, (opponent_type s); cbn [ActionType_eqb action_in existsb orb];
    unfold choices;
    match goal with
    | |- context [Qleb ?t 0] =>
        let b := eval vm_compute in (Qleb t 0) in
        change (Qleb t 0) with b
    end;
    cbn [bisect_keys map snd fst];
    repeat match goal with
      | |- context [Qltb ?a ?b] => destruct (Qltb a b)
      end;
    eexists; (split; [reflexivity | simpl; tauto]).
Qed.

(** A hero action other than BET, RAISE and ALL_IN is never answered by a
    fold. *)
Lemma passive_never_folded (s : State) (action : ActionType) (u : Q) :
  action_in action [BET; RAISE; ALL_IN] = false ->
  choices (opponent_response s action) u <> Ok FOLD.
Proof.
  intros Ha.
  destruct (choices_response s action u) as [resp [-> Hin]].
  intros E; injection E as ->.
  revert Hin. unfold opponent_response.
  destruct action, (opponent_type s); try discriminate Ha; simpl; intuition discriminate.
Qed.

(** ** Pot accounting in [execute_action] *)

(** C2 (amended).  For a state with non-negative pot and stacks and a
    non-negative bet size, one step of [execute_action] with CALL, BET,
    RAISE or ALL_IN returns a response, and with
    hero_contribution = min(bet_size, hero_stack) and
    villain_contribution = resp_amount:
    both stacks decrease by exactly their contribution, the pot grows by
    their sum, each contribution lies between 0 and the contributor's stack
    before the step, both stacks stay non-negative, and a request above the
    available stack is clamped to that stack, which is then exactly 0. *)
Theorem C2_pot_accounting (pick : Q) (s : State) (action : ActionType)
    (bet_size : Q) :
  0 <= pot s -> 0 <= hero_stack s -> 0 <= villain_stack s ->
  0 <= bet_size ->
  In action [CALL; BET; RAISE; ALL_IN] ->
  exists s' resp hero_contribution villain_contribution,
    execute_action pick s action bet_size = (s', Ok resp)
    /\ hero_contribution = pymin bet_size (hero_stack s)
    /\ villain_contribution
       = response_amount (apply_hero s action bet_size) resp bet_size
    /\ hero_stack s' == hero_stack s - hero_contribution
    /\ villain_stack s' == villain_stack s - villain_contribution
    /\ pot s' == pot s + hero_contribution + villain_contribution
    /\ 0 <= hero_contribution <= hero_stack s
    /\ 0 <= villain_contribution <= villain_stack s
    /\ 0 <= hero_stack s' /\ 0 <= villain_stack s'
    /\ (hero_stack s < bet_size ->
        hero_contribution == hero_stack s /\ hero_stack s' == 0)
    /\ (villain_stack s
        < requested (apply_hero s action bet_size) resp bet_size ->
        villain_contribution == villain_stack s /\ villain_stack s' == 0).
Proof.
  intros Hpot Hhero Hvil Hbet Hact.
  unfold execute_action.
  match goal with
  | |- context [choices (opponent_response ?t action) pick] =>
      destruct (choices_response t action pick) as [resp [Hc _]]; rewrite Hc
  end.
  eexists _, resp, _, _.
  split; [reflexivity |]. split; [reflexivity |]. split; [reflexivity |].
  simpl in Hact.
  destruct Hact as [<- | [<- | [<- | [<- | []]]]]; destruct resp;
    cbn -[pymin Qplus Qminus Qmult Qle Qlt Qeq];
    split_pymin; repeat split; intros; try lra.
Qed.

Lemma C2_pot_accounting_witness :
  exists s' resp hero_contribution villain_contribution,
    execute_action 0.9 scenario_A RAISE 3.0 = (s', Ok resp)
    /\ hero_contribution = pymin 3.0 (hero_stack scenario_A)
    /\ villain_contribution
       = response_amount (apply_hero scenario_A RAISE 3.0) resp 3.0
    /\ hero_stack s' == hero_stack scenario_A - hero_contribution
    /\ villain_stack s' == villain_stack scenario_A - villain_contribution
    /\ pot s' == pot scenario_A + hero_contribution + villain_contribution
    /\ 0 <= hero_contribution <= hero_stack scenario_A
    /\ 0 <= villain_contribution <= villain_stack scenario_A
    /\ 0 <= hero_stack s' /\ 0 <= villain_stack s'
    /\ (hero_stack scenario_A < 3.0 ->
        hero_contribution == hero_stack scenario_A /\ hero_stack s' == 0)
    /\ (villain_stack scenario_A
        < requested (apply_hero scenario_A RAISE 3.0) resp 3.0 ->
        villain_contribution == villain_stack scenario_A
        /\ villain_stack s' == 0).
Proof.
  apply (C2_pot_accounting 0.9 scenario_A RAISE 3.0);
    try (vm_compute; discriminate).
  simpl; tauto.
Defined.

(** C2, as stated, fails for a negative bet size: [min] only clamps from
    above, so BET of size -1 takes -1 out of the pot and hands it to the
    hero, a contribution below 0. *)
Lemma C2_counterexample :
  let s := scenario_A in
  let s' := fst (execute_action 0 s BET (-1)) in
  0 <= pot s /\ 0 <= hero_stack s /\ 0 <= villain_stack s
  /\ In BET [CALL; BET; RAISE; ALL_IN]
  /\ snd (execute_action 0 s BET (-1)) = Ok FOLD
  /\ hero_stack s - hero_stack s' == -1
  /\ ~ (0 <= hero_stack s - hero_stack s').
Proof.
  cbv zeta. repeat split; try (vm_compute; discriminate).
  - simpl; tauto.
  - vm_compute. intros H; apply H; reflexivity.
Qed.

(** ** [estimate_equity] *)

Lemma clamp_bounds (x : Q) :
  0.05 <= pymax 0.05 (pymin 0.95 x) <= 0.95.
Proof.
  unfold pymax, pymin.
  destruct (Qltb x 0.95) eqn:E1.
  - apply Qltb_true in E1.
    destruct (Qltb 0.05 x) eqn:E2; [apply Qltb_true in E2 |]; lra.
  - destruct (Qltb 0.05 0.95) eqn:E2; [| discriminate E2]. lra.
Qed.

(** A token without a first character, or whose first character is not a
    rank, contributes the default 0.3. *)
Lemma rank_value_default (card : pystr) :
  (forall c, idx card 0 = Ok c -> index_of c card_ranks = None) ->
  rank_value card = 0.3.
Proof.
  unfold rank_value. intros H.
  destruct (idx card 0) as [c |]; [| reflexivity].
  rewrite (H c eq_refl). reflexivity.
Qed.

(** The pin: a first card that contains "7" together with a second card
    that contains "2" gives 0.05 before anything else is looked at. *)
Lemma estimate_equity_pinned (s : State) (c0 c1 : pystr)
    (others : list pystr) :
  hole_cards s = c0 :: c1 :: others ->
  contains Chars.c7 c0 = true ->
  contains Chars.c2 c1 = true ->
  estimate_equity s = Ok 0.05.
Proof.
  intros Hc H7 H2. unfold estimate_equity. rewrite Hc.
  cbn [idx nth_error bind]. rewrite H7. cbn [bind]. rewrite H2.
  reflexivity.
Qed.

(** C3 (amended).  For every pair of hole-card tokens of at least two
    characters each (the first character need not be a rank: it then
    counts 0.3) and every stage other than TERMINAL, [estimate_equity]
    returns a number between 0.05 and 0.95. *)
Theorem C3_equity_bounds (s : State) (c0 c1 : pystr) :
  hole_cards s = [c0; c1] ->
  (2 <= List.length c0)%nat ->
  (2 <= List.length c1)%nat ->
  stage s <> TERMINAL ->
  (exists e, estimate_equity s = Ok e /\ 0.05 <= e <= 0.95)
  /\ (forall card,
        (forall c, idx card 0 = Ok c -> index_of c card_ranks = None) ->
        rank_value card = 0.3).
Proof.
  intros Hc H0 H1 Hstage. split; [| exact rank_value_default].
  destruct c0 as [| r0 [| u0 t0]]; try (simpl in H0; lia).
  destruct c1 as [| r1 [| u1 t1]]; try (simpl in H1; lia).
  unfold estimate_equity. rewrite Hc.
  cbn [idx nth_error bind map].
  destruct (contains Chars.c7 (r0 :: u0 :: t0)); cbn [bind];
    [destruct (contains Chars.c2 (r1 :: u1 :: t1)) |].
  - exists 0.05. split; [reflexivity | lra].
  - destruct (stage s); try contradiction; cbn [stage_factor bind];
      eexists; (split; [reflexivity | apply clamp_bounds]).
  - destruct (stage s); try contradiction; cbn [stage_factor bind];
      eexists; (split; [reflexivity | apply clamp_bounds]).
Qed.

Lemma C3_equity_bounds_witness :
  (exists e, estimate_equity (state_with SCAREDY_CAT FLOP
                                [ace_spades; king_hearts]) = Ok e
             /\ 0.05 <= e <= 0.95)
  /\ (forall card,
        (forall c, idx card 0 = Ok c -> index_of c card_ranks = None) ->
        rank_value card = 0.3).
Proof.
  apply (C3_equity_bounds
           (state_with SCAREDY_CAT FLOP [ace_spades; king_hearts])
           ace_spades king_hearts).
  - reflexivity.
  - simpl; lia.
  - simpl; lia.
  - discriminate.
Defined.

(** C3, as stated, fails at stage TERMINAL: the table of stage factors has
    no entry for it, so well-formed cards other than the pinned hand end in
    [KeyError]. *)
Lemma C3_counterexample :
  estimate_equity (state_with SCAREDY_CAT TERMINAL
                     [ace_spades; king_hearts]) = Raise KeyError.
Proof. reflexivity. Qed.

(** A token that is shorter than two characters makes the comparison of
    the suits fail, outside the [try] that guards the ranks. *)
Lemma estimate_equity_short_token (g : GameStage) :
  estimate_equity (state_with SCAREDY_CAT g [[Chars.cA]; [Chars.cK]])
  = Raise IndexError.
Proof. destruct g; reflexivity. Qed.

(** C4 (amended).  When the first hole card has rank "7" and the second
    has rank "2", in this order, [estimate_equity] returns exactly 0.05,
    whatever the suits, the stage and the other fields of the state. *)
Theorem C4_seven_deuce_pinned (s : State) (suit0 suit1 : pystr) :
  hole_cards s = [Chars.c7 :: suit0; Chars.c2 :: suit1] ->
  estimate_equity s = Ok 0.05.
Proof.
  intros Hc.
  apply (estimate_equity_pinned s _ _ [] Hc); reflexivity.
Qed.

Lemma C4_seven_deuce_pinned_witness :
  estimate_equity scenario_A = Ok 0.05.
Proof.
  apply (C4_seven_deuce_pinned scenario_A [Chars.diamond] [Chars.club]).
  reflexivity.
Defined.

(** C4, as stated, fails when the deuce comes first: 2♣ 7♦ before the flop
    is valued 0.8 * (0/12 + 5/12) / 2 = 1/6, not 0.05. *)
Lemma C4_counterexample :
  exists e,
    estimate_equity (state_with SCAREDY_CAT PREFLOP
                       [[Chars.c2; Chars.club]; [Chars.c7; Chars.diamond]])
    = Ok e
    /\ e == 1 # 6 /\ ~ e == 0.05.
Proof.
  eexists. split; [reflexivity |]. split.
  - reflexivity.
  - vm_compute. discriminate.
Qed.

(** ** [update_stage] *)

Lemma rev_last_two {A : Type} (h : list A) (e2 e1 : A) :
  rev (h ++ [e2; e1]) = e1 :: e2 :: rev h.
Proof. rewrite rev_app_distr. reflexivity. Qed.

Lemma stage_advance (s : State) : stage (advance s) = next_stage (stage s).
Proof. unfold advance. destruct (stage s) eqn:E; simpl; congruence. Qed.

Lemma stacks_advance (s : State) :
  hero_stack (advance s) = hero_stack s
  /\ villain_stack (advance s) = villain_stack s.
Proof. unfold advance. destruct (stage s); auto. Qed.

(** With fewer than two entries in the history nothing happens. *)
Lemma update_stage_short (s : State) :
  (List.length (history s) < 2)%nat -> update_stage s = s.
Proof.
  unfold update_stage. rewrite <- length_rev.
  destruct (rev (history s)) as [| e1 [| e2 l]]; simpl; auto. lia.
Qed.

(** A fold among the last two entries ends the hand at once: the [return]
    that follows leaves the rest of the method unread. *)
Lemma update_stage_fold (s : State) (h : list HistoryEntry)
    (e2 e1 : HistoryEntry) :
  history s = h ++ [e2; e1] ->
  entry_action e2 = FOLD \/ entry_action e1 = FOLD ->
  update_stage s = set_stage TERMINAL s.
Proof.
  intros Hh Hf. unfold update_stage. rewrite Hh, rev_last_two.
  destruct Hf as [-> | ->]; [reflexivity |].
  destruct (entry_action e2); reflexivity.
Qed.

(** Without a fold, the method is the choice between advancing and
    staying, followed by the test of the stacks.  The choice looks at the
    last entry only, unless both entries are checks. *)
Lemma update_stage_no_fold (s : State) (h : list HistoryEntry)
    (e2 e1 : HistoryEntry) :
  history s = h ++ [e2; e1] ->
  entry_action e2 <> FOLD -> entry_action e1 <> FOLD ->
  update_stage s
  = force_showdown
      (if (ActionType_eqb (entry_action e2) CHECK
           && ActionType_eqb (entry_action e1) CHECK)
          || ActionType_eqb (entry_action e1) CALL
       then advance s else s).
Proof.
  intros Hh H2 H1. unfold update_stage, is_bet_in_front.
  rewrite Hh, rev_last_two.
  destruct (entry_action e2) eqn:E2, (entry_action e1) eqn:E1;
    try contradiction; cbn; try reflexivity;
    rewrite andb_false_r; reflexivity.
Qed.

Lemma force_showdown_stage (s : State) :
  stage (force_showdown s)
  = if stack_empty s then SHOWDOWN else stage s.
Proof.
  unfold force_showdown, stack_empty.
  destruct (Qeqb (hero_stack s) 0 || Qeqb (villain_stack s) 0); reflexivity.
Qed.

Lemma stack_empty_true (s : State) :
  stack_empty s = true <-> hero_stack s == 0 \/ villain_stack s == 0.
Proof.
  unfold stack_empty. rewrite orb_true_iff, !Qeqb_true. tauto.
Qed.

Lemma stack_empty_false (s : State) :
  stack_empty s = false <-> ~ hero_stack s == 0 /\ ~ villain_stack s == 0.
Proof.
  unfold stack_empty. rewrite orb_false_iff, !Qeqb_false. tauto.
Qed.

Lemma stack_empty_advance (s : State) :
  stack_empty (advance s) = stack_empty s.
Proof.
  unfold stack_empty. destruct (stacks_advance s) as [-> ->]. reflexivity.
Qed.

(** C5 (amended).  When neither of the last two entries is a fold, they
    are not both checks, both stacks are non-zero and the stage is one of
    the four streets, [update_stage] advances the stage by one step exactly
    when the last entry of the history is a CALL, whoever made it; in
    [simulate_hand] that entry is the villain's.  (After a CALL no bet is
    outstanding, so that test adds nothing.) *)
Theorem C5_advance_on_last_call (s : State) (h : list HistoryEntry)
    (e2 e1 : HistoryEntry) :
  history s = h ++ [e2; e1] ->
  entry_action e2 <> FOLD -> entry_action e1 <> FOLD ->
  ~ (entry_action e2 = CHECK /\ entry_action e1 = CHECK) ->
  ~ hero_stack s == 0 -> ~ villain_stack s == 0 ->
  In (stage s) [PREFLOP; FLOP; TURN; RIVER] ->
  (entry_action e1 = CALL ->
   stage (update_stage s) = next_stage (stage s)
   /\ fst (is_bet_in_front s) = false)
  /\ (entry_action e1 <> CALL -> stage (update_stage s) = stage s)
  /\ next_stage (stage s) <> stage s.
Proof.
  intros Hh H2 H1 Hcc Hhero Hvil Hst.
  assert (Hne : stack_empty s = false) by (apply stack_empty_false; auto).
  rewrite (update_stage_no_fold s h e2 e1 Hh H2 H1), force_showdown_stage.
  split; [| split].
  - intros Hcall. rewrite Hcall. cbn [ActionType_eqb].
    rewrite orb_true_r, stack_empty_advance, Hne, stage_advance.
    split; [reflexivity |].
    unfold is_bet_in_front. rewrite Hh, rev_last_two, Hcall.
    cbn. rewrite andb_false_r. reflexivity.
  - intros Hcall.
    assert (E : (ActionType_eqb (entry_action e2) CHECK
                 && ActionType_eqb (entry_action e1) CHECK)
                || ActionType_eqb (entry_action e1) CALL = false).
    { destruct (entry_action e2), (entry_action e1);
        try reflexivity; try contradiction; exfalso; auto. }
    rewrite E, Hne. reflexivity.
  - simpl in Hst.
    destruct Hst as [<- | [<- | [<- | [<- | []]]]]; discriminate.
Qed.

Lemma C5_advance_on_last_call_witness :
  (CALL = CALL ->
   stage (update_stage after_raise_call) = next_stage (stage after_raise_call)
   /\ fst (is_bet_in_front after_raise_call) = false)
  /\ (CALL <> CALL ->
      stage (update_stage after_raise_call) = stage after_raise_call)
  /\ next_stage (stage after_raise_call) <> stage after_raise_call.
Proof.
  apply (C5_advance_on_last_call after_raise_call []
           (HERO, RAISE, 3.0) (VILLAIN, CALL, 3.0)).
  - reflexivity.
  - discriminate.
  - discriminate.
  - intros [H _]; discriminate H.
  - vm_compute; discriminate.
  - vm_compute; discriminate.
  - simpl; tauto.
Defined.

(** C5, as stated, fails in both directions.  In [after_call_check] the
    hero's last entry is a CALL, no fold occurred, the last two entries are
    not both checks and no villain bet is outstanding, yet the stage stays
    PREFLOP because the last entry is the villain's CHECK.  In
    [after_raise_call] the hero's last entry is a RAISE, yet the stage
    advances to FLOP because the last entry is the villain's CALL. *)
Lemma C5_counterexample :
  (moves after_call_check
   = [(HERO, RAISE); (VILLAIN, RAISE); (HERO, CALL); (VILLAIN, CHECK)]
   /\ option_map entry_action (last_hero_entry (history after_call_check))
      = Some CALL
   /\ fst (is_bet_in_front after_call_check) = false
   /\ stage after_call_check = PREFLOP
   /\ stage (update_stage after_call_check) = PREFLOP
   /\ stage (update_stage after_call_check)
      <> next_stage (stage after_call_check))
  /\ (moves after_raise_call = [(HERO, RAISE); (VILLAIN, CALL)]
      /\ option_map entry_action (last_hero_entry (history after_raise_call))
         = Some RAISE
      /\ fst (is_bet_in_front after_raise_call) = false
      /\ stage after_raise_call = PREFLOP
      /\ stage (update_stage after_raise_call) = FLOP
      /\ stage (update_stage after_raise_call)
         = next_stage (stage after_raise_call)).
Proof. repeat split; try reflexivity. vm_compute. discriminate. Qed.

(** C6 (amended).  When a stack is exactly 0 and the history has at least
    two entries, [update_stage] leaves the stage at SHOWDOWN provided that
    neither of the last two entries is a fold; when one of them is a fold
    the stage is TERMINAL, the test of the stacks not being reached. *)
Theorem C6_showdown_on_empty_stack (s : State) (h : list HistoryEntry)
    (e2 e1 : HistoryEntry) :
  history s = h ++ [e2; e1] ->
  hero_stack s == 0 \/ villain_stack s == 0 ->
  (entry_action e2 <> FOLD /\ entry_action e1 <> FOLD ->
   stage (update_stage s) = SHOWDOWN)
  /\ (entry_action e2 = FOLD \/ entry_action e1 = FOLD ->
      stage (update_stage s) = TERMINAL).
Proof.
  intros Hh Hz. apply stack_empty_true in Hz. split.
  - intros [H2 H1].
    rewrite (update_stage_no_fold s h e2 e1 Hh H2 H1), force_showdown_stage.
    destruct ((ActionType_eqb (entry_action e2) CHECK
               && ActionType_eqb (entry_action e1) CHECK)
              || ActionType_eqb (entry_action e1) CALL).
    + rewrite stack_empty_advance, Hz. reflexivity.
    + rewrite Hz. reflexivity.
  - intros Hf. rewrite (update_stage_fold s h e2 e1 Hh Hf). reflexivity.
Qed.

Lemma C6_showdown_on_empty_stack_witness :
  (RAISE <> FOLD /\ FOLD <> FOLD ->
   stage (update_stage after_shove_fold) = SHOWDOWN)
  /\ (RAISE = FOLD \/ FOLD = FOLD ->
      stage (update_stage after_shove_fold) = TERMINAL).
Proof.
  apply (C6_showdown_on_empty_stack after_shove_fold []
           (HERO, RAISE, 3.0) (VILLAIN, FOLD, 0)).
  - reflexivity.
  - left. reflexivity.
Defined.

(** C6, as stated, fails after a fold: the hero's stack is exactly 0 in
    [after_shove_fold], and [update_stage] leaves the stage at TERMINAL. *)
Lemma C6_counterexample :
  moves after_shove_fold = [(HERO, RAISE); (VILLAIN, FOLD)]
  /\ hero_stack after_shove_fold == 0
  /\ stage (update_stage after_shove_fold) = TERMINAL
  /\ stage (update_stage after_shove_fold) <> SHOWDOWN.
Proof. repeat split; try reflexivity. vm_compute. discriminate. Qed.

(** ** [optimal_action] when a bet is in front *)

(** C7 (amended).  When [is_bet_in_front] answers [True], the last entry
    of the history is a BET or a RAISE of the villain, never a CHECK or a
    CALL, so the branch "villain only checked or called" is not taken:
    [optimal_action] re-raises to raise_amt when the draw is below 0.7 and
    raise_amt > call_amt, and calls call_amt otherwise, with the expected
    value of that choice. *)
Theorem C7_bet_in_front_policy (coin : Q) (s : State) :
  fst (is_bet_in_front s) = true ->
  exists e,
    py_last (history s) = Ok e
    /\ entry_actor e = VILLAIN
    /\ (entry_action e = BET \/ entry_action e = RAISE)
    /\ action_in (entry_action e) [CHECK; CALL] = false
    /\ let s1 := set_last_bet_amount (entry_amount e) s in
       let call_amt := pymin (entry_amount e) (hero_stack s) in
       let raise_amt := pymin (entry_amount e * 2) (hero_stack s) in
       let choice := if Qltb coin 0.7 && Qltb call_amt raise_amt
                     then (RAISE, raise_amt) else (CALL, call_amt) in
       optimal_action coin s
       = (s1, ev <- calculate_ev s1 (fst choice) (snd choice) ;;
              Ok (choice, ev)).
Proof.
  intros Hflag.
  destruct (is_bet_in_front_true s Hflag) as [e [Hlast [Hwho [Hact Hs1]]]].
  assert (Hnot : action_in (entry_action e) [CHECK; CALL] = false)
    by (destruct Hact as [-> | ->]; reflexivity).
  exists e. repeat (split; [assumption |]).
  cbv zeta. unfold optimal_action. rewrite Hs1.
  change (history (set_last_bet_amount (entry_amount e) s)) with (history s).
  rewrite Hlast, Hnot. reflexivity.
Qed.

Lemma C7_bet_in_front_policy_witness :
  exists e,
    py_last (history after_reraise) = Ok e
    /\ entry_actor e = VILLAIN
    /\ (entry_action e = BET \/ entry_action e = RAISE)
    /\ action_in (entry_action e) [CHECK; CALL] = false
    /\ let s1 := set_last_bet_amount (entry_amount e) after_reraise in
       let call_amt := pymin (entry_amount e) (hero_stack after_reraise) in
       let raise_amt :=
         pymin (entry_amount e * 2) (hero_stack after_reraise) in
       let choice := if Qltb 0.9 0.7 && Qltb call_amt raise_amt
                     then (RAISE, raise_amt) else (CALL, call_amt) in
       optimal_action 0.9 after_reraise
       = (s1, ev <- calculate_ev s1 (fst choice) (snd choice) ;;
              Ok (choice, ev)).
Proof.
  apply (C7_bet_in_front_policy 0.9 after_reraise). reflexivity.
Defined.

(** C7, as stated, fails in its second half: no state at all, reachable or
    not, has the flag raised while the last entry is a CHECK or a CALL. *)
Lemma C7_counterexample :
  ~ exists s,
      reachable s
      /\ fst (is_bet_in_front s) = true
      /\ exists e, py_last (history s) = Ok e
                   /\ action_in (entry_action e) [CHECK; CALL] = true.
Proof.
  intros [s [_ [Hflag [e [Hlast Hin]]]]].
  destruct (is_bet_in_front_true s Hflag) as [e' [Hlast' [_ [Hact _]]]].
  rewrite Hlast in Hlast'. injection Hlast' as <-.
  destruct Hact as [E | E]; rewrite E in Hin; discriminate Hin.
Qed.

(** ** The shape of a step of [execute_action] *)

(** [execute_action] always returns a response; it appends the hero's and
    the villain's entries to the history and to the decision log, and
    leaves the stage alone.  [mid] is the state between the two halves of
    the step, once the hero's contribution has been applied. *)
Lemma execute_action_shape (pick : Q) (s : State) (action : ActionType)
    (bet_size : Q) :
  let mid := apply_hero s action bet_size in
  exists resp,
    snd (execute_action pick s action bet_size) = Ok resp
    /\ In resp (map fst (opponent_response s action))
    /\ history (fst (execute_action pick s action bet_size))
       = history s
           ++ [(HERO, action, bet_size);
               (VILLAIN, resp, response_amount mid resp bet_size)]
    /\ decision_tree (fst (execute_action pick s action bet_size))
       = decision_tree s
           ++ [mkLog HERO (stage s) action bet_size (pot s) (hero_stack s);
               mkLog VILLAIN (stage s) resp
                 (response_amount mid resp bet_size)
                 (pot mid) (villain_stack s)]
    /\ stage (fst (execute_action pick s action bet_size)) = stage s
    /\ hole_cards (fst (execute_action pick s action bet_size))
       = hole_cards s.
Proof.
  intros mid. unfold execute_action.
  match goal with
  | |- context [choices (opponent_response ?t action) pick] =>
      destruct (choices_response t action pick) as [resp [Hc Hin]];
      rewrite Hc
  end.
  exists resp. split; [reflexivity |]. split.
  { revert Hin. unfold opponent_response.
    destruct action; cbn; auto. }
  subst mid.
  destruct action, resp; cbn -[pymin Qplus Qminus Qmult];
    rewrite <- !app_assoc; repeat split; reflexivity.
Qed.

(** C9 (amended).  The two records that [execute_action] appends to the
    decision log are written before the contribution of the player they
    describe is applied.  The hero's record carries the pot and the hero's
    stack as they were when the method was entered; the villain's record
    carries the pot after the hero's contribution, before the villain's,
    and the villain's stack before the response is paid. *)
Theorem C9_log_before_contribution (pick : Q) (s : State)
    (action : ActionType) (bet_size : Q) :
  let mid := apply_hero s action bet_size in
  exists resp,
    snd (execute_action pick s action bet_size) = Ok resp
    /\ decision_tree (fst (execute_action pick s action bet_size))
       = decision_tree s
           ++ [mkLog HERO (stage s) action bet_size (pot s) (hero_stack s);
               mkLog VILLAIN (stage s) resp
                 (response_amount mid resp bet_size)
                 (pot mid) (villain_stack s)].
Proof.
  intros mid.
  destruct (execute_action_shape pick s action bet_size)
    as [resp [Hr [_ [_ [Ht _]]]]].
  exists resp. split; assumption.
Qed.

(** C9, as stated, fails on the opening raise of 3.0 that the villain
    calls: the hero's record shows pot 1.5 and stack 100 where the pot is
    4.5 and the stack 97 once the raise is paid, and the villain's record
    shows pot 4.5 and stack 100 where they are 7.5 and 97 after the call. *)
Lemma C9_counterexample :
  exists hero_record villain_record,
    decision_tree after_raise_call = [hero_record; villain_record]
    /\ log_player hero_record = HERO
    /\ log_pot hero_record == 1.5 /\ log_stack hero_record == 100
    /\ pot (apply_hero scenario_A RAISE 3.0) == 4.5
    /\ hero_stack (apply_hero scenario_A RAISE 3.0) == 97
    /\ log_player villain_record = VILLAIN
    /\ log_action villain_record = CALL
    /\ log_pot villain_record == 4.5 /\ log_stack villain_record == 100
    /\ pot after_raise_call == 7.5
    /\ villain_stack after_raise_call == 97
    /\ ~ log_pot hero_record == pot (apply_hero scenario_A RAISE 3.0)
    /\ ~ log_stack hero_record
         == hero_stack (apply_hero scenario_A RAISE 3.0)
    /\ ~ log_pot villain_record == pot after_raise_call
    /\ ~ log_stack villain_record == villain_stack after_raise_call.
Proof.
  do 2 eexists. split; [vm_compute; reflexivity |].
  repeat split; vm_compute; try reflexivity; discriminate.
Qed.

(** ** Failures inside a decision step *)

(** [estimate_equity] reads the hole cards and the stage only. *)
Lemma estimate_equity_frame (s t : State) :
  hole_cards t = hole_cards s -> stage t = stage s ->
  estimate_equity t = estimate_equity s.
Proof. intros Hc Hs. unfold estimate_equity. rewrite Hc, Hs. reflexivity. Qed.

(** The only way for [calculate_ev] to fail is the equity estimate that it
    asks for on the river. *)
Lemma ev_term_raise (s : State) (bet_size ev : Q) (resp : ActionType)
    (prob : Q) (e : exn) :
  ev_term s bet_size ev resp prob = Raise e ->
  stage s = RIVER /\ estimate_equity s = Raise e.
Proof.
  unfold ev_term. destruct resp; try discriminate.
  destruct (stage s) eqn:Es; cbn [GameStage_eqb]; try discriminate.
  destruct (estimate_equity s); cbn [bind]; [discriminate |].
  intros H; injection H as ->. auto.
Qed.

Lemma ev_loop_raise (s : State) (bet_size : Q)
    (items : list (ActionType * Q)) (ev : Q) (e : exn) :
  ev_loop s bet_size items ev = Raise e ->
  stage s = RIVER /\ estimate_equity s = Raise e.
Proof.
  revert ev. induction items as [| [resp prob] rest IH]; intros ev.
  - discriminate.
  - cbn [ev_loop].
    destruct (ev_term s bet_size ev resp prob) as [ev' | e'] eqn:Et;
      cbn [bind].
    + apply IH.
    + intros H; injection H as ->. exact (ev_term_raise _ _ _ _ _ _ Et).
Qed.

Lemma calculate_ev_raise (s : State) (action : ActionType) (bet_size : Q)
    (e : exn) :
  calculate_ev s action bet_size = Raise e ->
  stage s = RIVER /\ estimate_equity s = Raise e.
Proof.
  unfold calculate_ev. destruct (ActionType_eqb action FOLD);
    [discriminate | apply ev_loop_raise].
Qed.

(** [optimal_action] leaves the state as [is_bet_in_front] left it. *)
Lemma optimal_action_state (coin : Q) (s : State) :
  fst (optimal_action coin s) = snd (is_bet_in_front s).
Proof.
  unfold optimal_action. destruct (is_bet_in_front s) as [flag s1].
  destruct flag.
  - destruct (py_last (history s1)); reflexivity.
  - destruct (GameStage_eqb (stage s1) RIVER); [reflexivity |].
    destruct (get_bluff_action s1) as [action bet_size0].
    destruct (Qltb 0 (pymin bet_size0 (hero_stack s1))
              && Qltb 0 (hero_stack s1)); reflexivity.
Qed.

Lemma is_bet_in_front_frame (s : State) :
  let s1 := snd (is_bet_in_front s) in
  stage s1 = stage s /\ history s1 = history s
  /\ hole_cards s1 = hole_cards s
  /\ hero_stack s1 = hero_stack s /\ villain_stack s1 = villain_stack s.
Proof.
  unfold is_bet_in_front. destruct (rev (history s)) as [| e l];
    [cbn; repeat split; reflexivity |].
  destruct (Player_eqb (entry_actor e) VILLAIN
            && action_in (entry_action e) [BET; RAISE]);
    cbn; repeat split; reflexivity.
Qed.

Lemma bind_raise {A B : Type} (r : result A) (k : A -> result B) (e : exn) :
  (forall a, k a <> Raise e) -> bind r k = Raise e -> r = Raise e.
Proof.
  intros Hk. destruct r as [a | e']; cbn [bind].
  - intros H. elim (Hk a H).
  - intros H; injection H as ->. reflexivity.
Qed.

(** When [optimal_action] fails, the stage is RIVER and [estimate_equity]
    fails in the same way on the state that is left. *)
Lemma optimal_action_raise (coin : Q) (s : State) (e : exn) :
  snd (optimal_action coin s) = Raise e ->
  stage (fst (optimal_action coin s)) = RIVER
  /\ estimate_equity (fst (optimal_action coin s)) = Raise e.
Proof.
  rewrite optimal_action_state. unfold optimal_action.
  destruct (is_bet_in_front s) as [flag s1] eqn:Ef. cbn [snd].
  destruct flag.
  - assert (Hflag : fst (is_bet_in_front s) = true) by (rewrite Ef; auto).
    destruct (is_bet_in_front_true s Hflag) as [e0 [Hlast [_ [_ Hs1]]]].
    rewrite Ef in Hs1. injection Hs1 as ->.
    change (history (set_last_bet_amount (entry_amount e0) s))
      with (history s).
    rewrite Hlast. cbn [snd]. intros H.
    apply bind_raise in H; [| discriminate].
    exact (calculate_ev_raise _ _ _ _ H).
  - destruct (GameStage_eqb (stage s1) RIVER).
    + cbn [snd]. intros H. apply bind_raise in H; [| discriminate].
      exact (calculate_ev_raise _ _ _ _ H).
    + destruct (get_bluff_action s1) as [action bet_size0].
      destruct (Qltb 0 (pymin bet_size0 (hero_stack s1))
                && Qltb 0 (hero_stack s1));
        cbn [snd]; intros H; (apply bind_raise in H; [| discriminate]);
        exact (calculate_ev_raise _ _ _ _ H).
Qed.

(** Every failure of a decision step reaches the caller of
    [simulate_hand]: the loop stops on it, and the resolution that follows
    asks for the same equity estimate outside any handler. *)
Lemma decision_failure_propagates (coin pick show : Q)
    (rest : list (Q * Q)) (s : State) (e : exn) :
  stage_in (stage s) [TERMINAL; SHOWDOWN] = false ->
  snd (optimal_action coin s) = Raise e ->
  simulate_hand ((coin, pick) :: rest) show s
  = Some (fst (optimal_action coin s), Raise e).
Proof.
  intros Hst Hr.
  destruct (optimal_action_raise coin s e Hr) as [Hriver Heq].
  unfold simulate_hand. cbn [hand_loop]. rewrite Hst.
  destruct (optimal_action coin s) as [s1 r]. cbn [fst snd] in *.
  subst r. unfold resolve. rewrite Hriver. cbn [GameStage_eqb].
  rewrite Heq. reflexivity.
Qed.

(** C8.  The hand [suitless_river] starts on the river with the hole cards
    "A" and "K".  Whatever the draws, the first decision step fails with
    [IndexError] inside [optimal_action]; the loop stops on it with no
    decision counted, and [simulate_hand] then fails with the same
    [IndexError] instead of returning its tuple. *)
Theorem C8_failure_reaches_caller (coin pick show : Q)
    (rest : list (Q * Q)) :
  snd (optimal_action coin suitless_river) = Raise IndexError
  /\ hand_loop ((coin, pick) :: rest) suitless_river 0 0%Z
     = Some (Stopped suitless_river 0 0%Z)
  /\ simulate_hand ((coin, pick) :: rest) show suitless_river
     = Some (suitless_river, Raise IndexError).
Proof. repeat split; reflexivity. Qed.

(** ** The hero never folds *)

(** The actions that [optimal_action] can return. *)
Lemma optimal_action_actions (coin : Q) (s : State)
    (choice : ActionType * Q) (ev : Q) :
  snd (optimal_action coin s) = Ok (choice, ev) ->
  In (fst choice) [CHECK; CALL; BET; RAISE].
Proof.
  unfold optimal_action. destruct (is_bet_in_front s) as [flag s1].
  destruct flag.
  - destruct (py_last (history s1)) as [last_entry |]; [| discriminate].
    cbn [snd].
    match goal with
    | |- bind (calculate_ev _ (fst ?c) (snd ?c)) _ = _ -> _ =>
        assert (Hc : In (fst c) [CHECK; CALL; BET; RAISE]);
        [| destruct (calculate_ev s1 (fst c) (snd c)); cbn [bind];
           [intros H; injection H as <- _; exact Hc | discriminate]]
    end.
    destruct (action_in (entry_action last_entry) [CHECK; CALL]
              && Qltb 0 (pymin (last_bet_amount s1 * 2) (hero_stack s1)));
      [simpl; tauto |].
    destruct (Qltb coin 0.7 && _); simpl; tauto.
  - destruct (GameStage_eqb (stage s1) RIVER).
    + cbn [snd]. destruct (calculate_ev s1 BET _); cbn [bind];
        [| discriminate].
      intros H; injection H as <- _. simpl; tauto.
    + destruct (get_bluff_action s1) as [action bet_size0] eqn:Eb.
      assert (Ha : In action [CHECK; CALL; BET; RAISE]).
      { revert Eb. unfold get_bluff_action.
        destruct (GameStage_eqb (stage s1) PREFLOP), (opponent_type s1);
          intros H; injection H as <- _; simpl; tauto. }
      destruct (Qltb 0 (pymin bet_size0 (hero_stack s1))
                && Qltb 0 (hero_stack s1)); cbn [snd];
        match goal with
        | |- bind ?c _ = _ -> _ =>
            destruct c; cbn [bind]; [| discriminate]
        end;
        intros H; injection H as <- _; [exact Ha | simpl; tauto].
Qed.

Lemma history_advance (s : State) : history (advance s) = history s.
Proof. unfold advance. destruct (stage s); reflexivity. Qed.

Lemma history_force_showdown (s : State) :
  history (force_showdown s) = history s.
Proof.
  unfold force_showdown.
  destruct (Qeqb (hero_stack s) 0 || Qeqb (villain_stack s) 0); reflexivity.
Qed.

(** [update_stage] never touches the history. *)
Lemma history_update_stage (s : State) :
  history (update_stage s) = history s.
Proof.
  unfold update_stage.
  destruct (rev (history s)) as [| e1 [| e2 l]]; try reflexivity.
  destruct (action_in FOLD [entry_action e2; entry_action e1]);
    [reflexivity |].
  rewrite history_force_showdown.
  destruct (ActionType_eqb (entry_action e2) CHECK
            && ActionType_eqb (entry_action e1) CHECK);
    [apply history_advance |].
  destruct (ActionType_eqb (entry_action e1) CALL); [| reflexivity].
  pose proof (is_bet_in_front_frame s) as [_ [Hh _]].
  destruct (is_bet_in_front s) as [flag s']. cbn [snd] in Hh.
  destruct (negb flag); [rewrite history_advance |]; exact Hh.
Qed.

Lemma py_last_snoc {A : Type} (l : list A) (x : A) :
  py_last (l ++ [x]) = Ok x.
Proof. unfold py_last. rewrite rev_app_distr. reflexivity. Qed.

(** A pass of the loop in which nobody folds cannot end at TERMINAL. *)
Lemma update_stage_not_terminal (s : State) (h : list HistoryEntry)
    (e2 e1 : HistoryEntry) :
  history s = h ++ [e2; e1] ->
  entry_action e2 <> FOLD -> entry_action e1 <> FOLD ->
  stage s <> TERMINAL ->
  stage (update_stage s) <> TERMINAL.
Proof.
  intros Hh H2 H1 Hst.
  rewrite (update_stage_no_fold s h e2 e1 Hh H2 H1), force_showdown_stage.
  destruct (stack_empty _); [discriminate |].
  destruct ((ActionType_eqb (entry_action e2) CHECK
             && ActionType_eqb (entry_action e1) CHECK)
            || ActionType_eqb (entry_action e1) CALL); [| exact Hst].
  rewrite stage_advance. destruct (stage s); try discriminate.
  contradiction.
Qed.

Lemma stage_in_final (g : GameStage) :
  stage_in g [TERMINAL; SHOWDOWN] = false -> g <> TERMINAL.
Proof. destruct g; try discriminate; intros _ H; discriminate H. Qed.

Lemma ActionType_eqb_eq (a b : ActionType) :
  ActionType_eqb a b = true <-> a = b.
Proof. destruct a, b; split; intros H; try reflexivity; discriminate H. Qed.

Lemma ActionType_eqb_neq (a b : ActionType) :
  ActionType_eqb a b = false <-> a <> b.
Proof.
  destruct a, b; split; intros H; try reflexivity; try discriminate H;
    try (intros E; discriminate E); contradiction.
Qed.

(** One pass through the body of the loop, from a state whose stage is not
    TERMINAL: the hero's entry is not a fold, so the stage after
    [update_stage] is TERMINAL only when the villain folded, and the
    history then ends with that fold. *)
Lemma pass_outcome (coin pick : Q) (s s1 s3 : State) (action : ActionType)
    (bet_size ev : Q) (r : result ActionType) :
  stage s <> TERMINAL ->
  optimal_action coin s = (s1, Ok ((action, bet_size), ev)) ->
  execute_action pick (set_decision_evs (decision_evs s1 ++ [ev]) s1)
    action bet_size = (s3, r) ->
  exists resp amount,
    r = Ok resp
    /\ history (update_stage s3)
       = (history s ++ [(HERO, action, bet_size)])
           ++ [(VILLAIN, resp, amount)]
    /\ (resp <> FOLD -> stage (update_stage s3) <> TERMINAL).
Proof.
  intros Hst Hopt Hexe.
  assert (Hact : In action [CHECK; CALL; BET; RAISE]).
  { apply (optimal_action_actions coin s (action, bet_size) ev).
    rewrite Hopt. reflexivity. }
  assert (Hs1 : s1 = snd (is_bet_in_front s)).
  { rewrite <- (optimal_action_state coin s), Hopt. reflexivity. }
  destruct (is_bet_in_front_frame s) as [Hstage [Hhist _]].
  rewrite <- Hs1 in Hstage, Hhist.
  destruct (execute_action_shape pick
              (set_decision_evs (decision_evs s1 ++ [ev]) s1)
              action bet_size) as [resp [Hr [_ [Hh [_ [Hg _]]]]]].
  rewrite Hexe in Hr, Hh, Hg. cbn [fst snd] in Hr, Hh, Hg.
  cbn [history stage set_decision_evs] in Hh, Hg.
  rewrite Hhist in Hh. rewrite Hstage in Hg.
  eexists resp, _. split; [exact Hr |]. split.
  - rewrite history_update_stage, Hh, <- app_assoc. reflexivity.
  - intros Hresp.
    apply (update_stage_not_terminal s3 (history s) _ _ Hh).
    + cbn. intros E. rewrite E in Hact. simpl in Hact.
      intuition discriminate.
    + exact Hresp.
    + rewrite Hg. exact Hst.
Qed.

(** The loop of [simulate_hand] keeps [folded_by_villain]. *)
Lemma hand_loop_folded (draws : list (Q * Q)) :
  forall (s : State) (total : Q) (count : Z) (s' : State) (total' : Q)
         (count' : Z),
    folded_by_villain s ->
    hand_loop draws s total count = Some (Stopped s' total' count') ->
    folded_by_villain s'.
Proof.
  induction draws as [| [coin pick] rest IH];
    intros s total count s' total' count' Hinv; cbn [hand_loop];
    destruct (stage_in (stage s) [TERMINAL; SHOWDOWN]) eqn:Est;
    try (intros H; injection H as <- _ _; exact Hinv);
    try discriminate.
  pose proof (stage_in_final _ Est) as Hnt.
  destruct (optimal_action coin s) as [s1 [[[action bet_size] ev] | e]]
    eqn:Hopt.
  - destruct (execute_action pick _ action bet_size) as [s3 r] eqn:Hexe.
    destruct (pass_outcome coin pick s s1 s3 action bet_size ev r
                Hnt Hopt Hexe) as [resp [amount [-> [Hh Hterm]]]].
    destruct (ActionType_eqb resp FOLD) eqn:Ef.
    + intros H; injection H as <- _ _. intros _.
      apply ActionType_eqb_eq in Ef. subst resp.
      exists amount. cbn [history set_stage].
      rewrite Hh. apply py_last_snoc.
    + apply ActionType_eqb_neq in Ef.
      destruct (stack_empty (update_stage s3)).
      * intros H; injection H as <- _ _. intros E; discriminate E.
      * apply IH. intros E. elim (Hterm Ef E).
  - intros H; injection H as <- _ _. intros E. exfalso.
    assert (Hs1 : s1 = snd (is_bet_in_front s)).
    { rewrite <- (optimal_action_state coin s), Hopt. reflexivity. }
    destruct (is_bet_in_front_frame s) as [Hstage _].
    rewrite <- Hs1 in Hstage. congruence.
Qed.

Lemma stage_init (opponent : PlayerType) (hero_position : string)
    (hero villain : Q) :
  stage (init opponent hero_position hero villain) = PREFLOP.
Proof.
  unfold init. destruct (String.eqb hero_position "SB"); [reflexivity |].
  destruct (String.eqb hero_position "BB"); reflexivity.
Qed.

Lemma stage_start_hand (s : State) (cards : list pystr)
    (flop : option (list pystr)) (turn river : option board_item) :
  stage (start_hand s cards flop turn river) <> TERMINAL.
Proof.
  unfold start_hand.
  destruct river as [r |]; [destruct (truthy_item (Some r)) |];
    try discriminate;
    (destruct turn as [t |]; [destruct (truthy_item (Some t)) |];
     try discriminate;
     (destruct flop as [f |]; [destruct (truthy_list (Some f)) |];
      discriminate)).
Qed.

(** The resolution changes neither the stage nor the history. *)
Lemma resolve_frame (show : Q) (s : State) (total : Q) (count : Z) :
  stage (fst (resolve show s total count)) = stage s
  /\ history (fst (resolve show s total count)) = history s.
Proof.
  unfold resolve. destruct (GameStage_eqb (stage s) TERMINAL).
  - destruct (py_last (history s)) as [last_action |]; [| auto].
    destruct (Player_eqb (entry_actor last_action) VILLAIN
              && ActionType_eqb (entry_action last_action) FOLD); auto.
  - destruct (estimate_equity s) as [hero_equity |]; [| auto].
    destruct (Qltb show hero_equity); auto.
Qed.

(** Every reachable state at stage TERMINAL has a history that ends with a
    fold of the villain. *)
Lemma reachable_folded (s : State) : reachable s -> folded_by_villain s.
Proof.
  induction 1 as [opponent hero_position hero villain
                 | s cards flop turn river _ _
                 | s coin pick s1 action bet_size ev s3 resp _ _
                     Hst Hopt Hexe Hresp _
                 | s draws show s' r _ IH Hsim]; intros Hterm.
  - rewrite stage_init in Hterm. discriminate.
  - elim (stage_start_hand _ _ _ _ _ Hterm).
  - destruct (pass_outcome coin pick s s1 s3 action bet_size ev (Ok resp)
                (stage_in_final _ Hst) Hopt Hexe)
      as [resp' [amount [E [_ Hnot]]]].
    injection E as <-. apply ActionType_eqb_neq in Hresp.
    elim (Hnot Hresp Hterm).
  - unfold simulate_hand in Hsim.
    destruct (hand_loop draws s 0 0%Z) as [[s1 total count] |] eqn:Hloop;
      [| discriminate].
    injection Hsim as Hsim.
    destruct (resolve_frame show s1 total count) as [Hg Hh].
    rewrite Hsim in Hg, Hh. cbn [fst] in Hg, Hh.
    rewrite Hg in Hterm.
    destruct (hand_loop_folded draws s 0 0%Z s1 total count IH Hloop Hterm)
      as [amount Hlast].
    exists amount. rewrite Hh. exact Hlast.
Qed.

(** C10.  In every reachable state, [optimal_action] returns an action
    among CHECK, CALL, BET and RAISE, never FOLD and never ALL_IN.  Hence
    when a hand simulated from a reachable state ends at stage TERMINAL,
    the last entry of the history is a fold of the villain, the resolution
    returns the winner "Hero", and the pot is added to the hero's stack,
    the villain's stack being left as the loop left it. *)
Theorem C10_hero_never_folds (coin show : Q) (draws : list (Q * Q))
    (s s' : State) (r : result HandResult) :
  reachable s ->
  (forall choice ev,
      snd (optimal_action coin s) = Ok (choice, ev) ->
      In (fst choice) [CHECK; CALL; BET; RAISE]
      /\ fst choice <> FOLD /\ fst choice <> ALL_IN)
  /\ (simulate_hand draws show s = Some (s', r) ->
      stage s' = TERMINAL ->
      (exists amount, py_last (history s') = Ok (VILLAIN, FOLD, amount))
      /\ exists s1 total count res,
           hand_loop draws s 0 0%Z = Some (Stopped s1 total count)
           /\ r = Ok res
           /\ winner res = "Hero"%string
           /\ s' = set_hero_stack (hero_stack s1 + pot s1) s1).
Proof.
  intros Hreach. split.
  - intros choice ev Hopt.
    pose proof (optimal_action_actions coin s choice ev Hopt) as Hin.
    split; [exact Hin |]. simpl in Hin.
    split; intros E; rewrite E in Hin; intuition discriminate.
  - intros Hsim Hterm.
    pose proof (reachable_folded s' (reach_simulate_hand s draws show s' r
                                       Hreach Hsim) Hterm) as Hlast.
    split; [exact Hlast |].
    unfold simulate_hand in Hsim.
    destruct (hand_loop draws s 0 0%Z) as [[s1 total count] |] eqn:Hloop;
      [| discriminate].
    injection Hsim as Hsim.
    destruct (resolve_frame show s1 total count) as [Hg Hh].
    rewrite Hsim in Hg, Hh. cbn [fst] in Hg, Hh.
    destruct Hlast as [amount Hlast]. rewrite Hh in Hlast.
    rewrite Hg in Hterm.
    unfold resolve in Hsim. rewrite Hterm, Hlast in Hsim.
    cbn [GameStage_eqb entry_actor entry_action fst snd Player_eqb
         ActionType_eqb andb] in Hsim.
    injection Hsim as <- <-.
    exists s1, total, count. eexists. repeat split.
Qed.

Lemma C10_hero_never_folds_witness :
  exists s' r,
    simulate_hand [(0, 0)] 0 scenario_A = Some (s', r)
    /\ stage s' = TERMINAL
    /\ (forall choice ev,
          snd (optimal_action 0 scenario_A) = Ok (choice, ev) ->
          In (fst choice) [CHECK; CALL; BET; RAISE]
          /\ fst choice <> FOLD /\ fst choice <> ALL_IN)
    /\ (exists amount, py_last (history s') = Ok (VILLAIN, FOLD, amount))
    /\ exists s1 total count res,
         hand_loop [(0, 0)] scenario_A 0 0%Z
         = Some (Stopped s1 total count)
         /\ r = Ok res
         /\ winner res = "Hero"%string
         /\ s' = set_hero_stack (hero_stack s1 + pot s1) s1.
Proof.
  assert (Hreach : reachable scenario_A)
    by (unfold scenario_A; apply reach_start_hand, reach_init).
  destruct (simulate_hand [(0, 0)] 0 scenario_A) as [[s' r] |] eqn:E.
  2: { vm_compute in E. discriminate E. }
  exists s', r. split; [reflexivity |].
  assert (Hstage : stage s' = TERMINAL).
  { vm_compute in E. injection E as <- _. reflexivity. }
  split; [exact Hstage |]. split.
  - exact (proj1 (C10_hero_never_folds 0 0 [(0, 0)] scenario_A
                    s' r Hreach)).
  - exact (proj2 (C10_hero_never_folds 0 0 [(0, 0)] scenario_A s' r Hreach)
             E Hstage).
Defined.

(** * Further properties *)

(** ** The response tables *)

(** X1.  Every table of [opponent_response] is a probability
    distribution: each weight is positive and the weights sum to 1. *)
Theorem X1_response_weights (s : State) (our_action : ActionType) :
  Forall (fun item => 0 < snd item) (opponent_response s our_action)
  /\ pysum (map snd (opponent_response s our_action)) == 1.
Proof.
  unfold opponent_response.
  destruct our_action, (opponent_type s); cbn [ActionType_eqb action_in
    existsb orb]; (split; [repeat constructor | reflexivity]).
Qed.

(** X2.  [execute_action] always obtains a response, and its label depends
    on the hero's action only through its class: ALL_IN is always answered
    by FOLD; BET and RAISE by FOLD, CALL or RAISE; every other action by
    CHECK or BET, never by a fold. *)
Theorem X2_response_classes (pick : Q) (s : State) (action : ActionType)
    (bet_size : Q) :
  exists resp,
    snd (execute_action pick s action bet_size) = Ok resp
    /\ match action with
       | ALL_IN => resp = FOLD
       | BET | RAISE => In resp [FOLD; CALL; RAISE]
       | FOLD | CHECK | CALL => In resp [CHECK; BET]
       end.
Proof.
  destruct (execute_action_shape pick s action bet_size)
    as [resp [Hr [Hin _]]].
  exists resp. split; [exact Hr |].
  revert Hin. unfold opponent_response.
  destruct action, (opponent_type s); simpl; intuition (subst; auto).
Qed.

(** ** [calculate_ev] *)

Lemma calculate_ev_passive (s : State) (action : ActionType)
    (bet_size : Q) :
  In action [FOLD; CHECK; CALL] ->
  exists ev, calculate_ev s action bet_size = Ok ev /\ ev == 0.
Proof.
  intros Hact. unfold calculate_ev, opponent_response.
  simpl in Hact. destruct Hact as [<- | [<- | [<- | []]]];
    destruct (opponent_type s); cbn;
    eexists; (split; [reflexivity | lra]).
Qed.

Lemma calculate_ev_all_in (s : State) (bet_size : Q) :
  exists ev, calculate_ev s ALL_IN bet_size = Ok ev /\ ev == pot s.
Proof.
  unfold calculate_ev, opponent_response. cbn.
  eexists. split; [reflexivity | lra].
Qed.

(** X3.  FOLD, CHECK and CALL are priced at 0 in every state, whatever the
    bet size: the two responses to a passive action add nothing, and no
    equity estimate is asked for, so the hole cards cannot make it fail. *)
Theorem X3_passive_ev_zero (s : State) (bet_size : Q) :
  (exists ev, calculate_ev s FOLD bet_size = Ok ev /\ ev == 0)
  /\ (exists ev, calculate_ev s CHECK bet_size = Ok ev /\ ev == 0)
  /\ (exists ev, calculate_ev s CALL bet_size = Ok ev /\ ev == 0).
Proof.
  repeat split; apply calculate_ev_passive; simpl; tauto.
Qed.

(** X4.  The expected value of ALL_IN is the pot, in every state and for
    every bet size. *)
Theorem X4_all_in_ev (s : State) (bet_size : Q) :
  exists ev, calculate_ev s ALL_IN bet_size = Ok ev /\ ev == pot s.
Proof. apply calculate_ev_all_in. Qed.

(** X5.  Before the river, a BET or RAISE of size b is worth the float
    [ev_before_river]: the sum, accumulated from 0 and rounded after every
    operation, of 0.65 pot, 0.30 (-b) and 0.05 (-b) against TIGHT_PASSIVE,
    of 0.10 pot, 0.30 (-b * 1.3) and 0.60 (-b * 1.5) against
    LOOSE_AGGRESSIVE, and of 0.80 pot, 0.19 (-b) and 0.01 (-b) against
    SCAREDY_CAT.  Hole cards, stacks and history play no part, and the
    computation cannot fail. *)
Theorem X5_ev_before_river (s : B64.State) (action : ActionType)
    (bet_size : float) :
  B64.stage s <> RIVER ->
  In action [BET; RAISE] ->
  B64.calculate_ev s action bet_size
  = Ok (ev_before_river (B64.opponent_type s) (B64.pot s) bet_size).
Proof.
  intros Hst Hact.
  assert (Hr : GameStage_eqb (B64.stage s) RIVER = false)
    by (destruct (B64.stage s); try reflexivity; contradiction).
  unfold B64.calculate_ev, B64.opponent_response.
  simpl in Hact. destruct Hact as [<- | [<- | []]];
    destruct (B64.opponent_type s) eqn:Eo;
    cbn [ActionType_eqb action_in existsb orb B64.ev_loop bind B64.ev_term];
    rewrite ?Hr, ?Eo; cbn [PlayerType_eqb bind ev_before_river];
    reflexivity.
Qed.

Lemma X5_ev_before_river_witness :
  B64.calculate_ev scenario_A_b64 BET 2
  = Ok (ev_before_river (B64.opponent_type scenario_A_b64)
          (B64.pot scenario_A_b64) 2).
Proof.
  apply (X5_ev_before_river scenario_A_b64 BET 2).
  - vm_compute. discriminate.
  - simpl; tauto.
Defined.

(** X6.  [calculate_ev] fails in one situation only: a BET or RAISE priced
    on the river while [estimate_equity] fails; the failure is then the one
    of [estimate_equity]. *)
Theorem X6_ev_failure (s : State) (action : ActionType) (bet_size : Q)
    (e : exn) :
  calculate_ev s action bet_size = Raise e
  <-> In action [BET; RAISE] /\ stage s = RIVER
      /\ estimate_equity s = Raise e.
Proof.
  split.
  - intros H. destruct (calculate_ev_raise s action bet_size e H) as [Hs He].
    split; [| auto].
    destruct action; simpl; auto; exfalso;
      try (destruct (calculate_ev_all_in s bet_size) as [ev [E _]];
           congruence);
      match goal with
      | _ : calculate_ev s ?a bet_size = Raise e |- _ =>
          destruct (calculate_ev_passive s a bet_size) as [ev [E _]];
          [simpl; tauto | congruence]
      end.
  - intros [Hact [Hs He]].
    unfold calculate_ev, opponent_response.
    simpl in Hact. destruct Hact as [<- | [<- | []]];
      destruct (opponent_type s); cbn [ActionType_eqb action_in existsb
        orb ev_loop bind ev_term];
      rewrite Hs; cbn [GameStage_eqb]; rewrite He; reflexivity.
Qed.

(** ** [estimate_equity] on other inputs *)

Lemma idx_raise {A : Type} (l : list A) (i : nat) (e : exn) :
  idx l i = Raise e -> e = IndexError.
Proof.
  unfold idx. destruct (nth_error l i); [discriminate |].
  intros H; injection H as <-. reflexivity.
Qed.

(** X7.  With fewer than two hole cards [estimate_equity] raises
    [IndexError] at every stage, whatever the card that is there. *)
Theorem X7_too_few_cards (s : State) :
  (List.length (hole_cards s) < 2)%nat ->
  estimate_equity s = Raise IndexError.
Proof.
  intros Hlen. unfold estimate_equity.
  destruct (hole_cards s) as [| c [| c' l]]; [reflexivity | | simpl in Hlen; lia].
  cbn [idx nth_error bind map].
  destruct (contains Chars.c7 c); cbn [bind]; [reflexivity |].
  unfold idx. destruct (nth_error c 1); reflexivity.
Qed.

Lemma X7_too_few_cards_witness :
  estimate_equity (state_with SCAREDY_CAT RIVER [ace_spades])
  = Raise IndexError.
Proof.
  apply (X7_too_few_cards (state_with SCAREDY_CAT RIVER [ace_spades])).
  simpl; lia.
Defined.

Lemma Qleb_false (a b : Q) : Qleb a b = false <-> b < a.
Proof.
  unfold Qleb; destruct (Qlt_le_dec b a); split; intros; auto;
    try discriminate; try lra.
Qed.

Lemma Qleb_proper (a a' b : Q) : a == a' -> Qleb a b = Qleb a' b.
Proof.
  intros E. destruct (Qleb a b) eqn:E1, (Qleb a' b) eqn:E2; auto;
    rewrite ?Qleb_true, ?Qleb_false in *; lra.
Qed.

Lemma Qabs_minus_sym (x y : Q) : Qabs (x - y) == Qabs (y - x).
Proof.
  rewrite <- (Qabs_opp (x - y)). apply Qabs_wd. ring.
Qed.

(** The clamp to [0.05, 0.95] sends equal numbers to equal numbers. *)
Lemma clamp_proper (x y : Q) :
  x == y -> pymax 0.05 (pymin 0.95 x) == pymax 0.05 (pymin 0.95 y).
Proof.
  intros E. unfold pymax, pymin.
  destruct (Qltb x 0.95) eqn:Ex, (Qltb y 0.95) eqn:Ey;
    rewrite ?Qltb_true, ?Qltb_false in *; try lra; try reflexivity.
  destruct (Qltb 0.05 x) eqn:Fx, (Qltb 0.05 y) eqn:Fy;
    rewrite ?Qltb_true, ?Qltb_false in *; lra.
Qed.

(** X8.  Apart from the pin, the estimate does not depend on the order of
    the two hole cards: when neither order is pinned, swapping the cards
    gives the same number, or the same exception. *)
Theorem X8_equity_symmetric (s t : State) (c0 c1 : pystr) :
  hole_cards s = [c0; c1] ->
  hole_cards t = [c1; c0] ->
  stage t = stage s ->
  pinned_pair c0 c1 = false ->
  pinned_pair c1 c0 = false ->
  same_outcome (estimate_equity s) (estimate_equity t).
Proof.
  intros Hs Ht Hst Hp Hq. unfold estimate_equity.
  rewrite Hs, Ht, Hst. cbn [idx nth_error bind map].
  unfold pinned_pair in Hp, Hq.
  assert (P1 : (if contains Chars.c7 c0
                then Ok (contains Chars.c2 c1) else Ok false)
               = Ok false).
  { destruct (contains Chars.c7 c0); [| reflexivity].
    simpl in Hp. rewrite Hp. reflexivity. }
  assert (P2 : (if contains Chars.c7 c1
                then Ok (contains Chars.c2 c0) else Ok false)
               = Ok false).
  { destruct (contains Chars.c7 c1); [| reflexivity].
    simpl in Hq. rewrite Hq. reflexivity. }
  rewrite P1, P2. cbn [bind].
  destruct c0 as [| r0 [| u0 t0]]; destruct c1 as [| r1 [| u1 t1]];
    cbn [idx nth_error bind same_outcome]; try reflexivity.
  rewrite (N.eqb_sym u1 u0).
  rewrite (Qleb_proper _ _ 0.083
             (Qabs_minus_sym (rank_value (r1 :: u1 :: t1))
                (rank_value (r0 :: u0 :: t0)))).
  generalize (rank_value (r0 :: u0 :: t0)) as v0.
  generalize (rank_value (r1 :: u1 :: t1)) as v1. intros v1 v0.
  destruct (stage s); cbn [stage_factor bind same_outcome];
    try reflexivity;
    apply clamp_proper; unfold pysum, pylen; cbn [fold_left List.length];
    destruct (N.eqb u0 u1), (Qleb (Qabs (v0 - v1)) 0.083); cbn [andb];
    field.
Qed.

Lemma X8_equity_symmetric_witness :
  same_outcome
    (estimate_equity (state_with SCAREDY_CAT FLOP [ace_spades; king_hearts]))
    (estimate_equity (state_with SCAREDY_CAT FLOP [king_hearts; ace_spades])).
Proof.
  apply (X8_equity_symmetric
           (state_with SCAREDY_CAT FLOP [ace_spades; king_hearts])
           (state_with SCAREDY_CAT FLOP [king_hearts; ace_spades])
           ace_spades king_hearts); reflexivity.
Defined.

Lemma index_of_lt (x : char) (l : list char) (k : nat) :
  index_of x l = Some k -> (k < List.length l)%nat.
Proof.
  revert k. induction l as [| y l IH]; intros k; cbn [index_of List.length].
  - discriminate.
  - destruct (N.eqb x y).
    + intros H; injection H as <-. lia.
    + destruct (index_of x l) as [j |]; cbn [option_map]; [| discriminate].
      intros H; injection H as <-. specialize (IH j eq_refl). lia.
Qed.

(** In binary64 two ranks pass the test [rank_diff <= 0.083] only when
    they are the same rank: checked for each of the 13 * 13 pairs. *)
Lemma b64_rank_gap (k0 k1 : nat) :
  (k0 < 13)%nat -> (k1 < 13)%nat ->
  (PrimFloat.abs (B64.of_nat k0 / 12.0 - B64.of_nat k1 / 12.0) <=? 0.083)%float
  = Nat.eqb k0 k1.
Proof.
  intros H0 H1.
  do 13 (destruct k0 as [| k0];
         [do 13 (destruct k1 as [| k1]; [vm_compute; reflexivity |]); lia |]).
  lia.
Qed.

Lemma b64_rank_value_valid (r : char) (rest : pystr) (k : nat) :
  index_of r card_ranks = Some k ->
  B64.rank_value (r :: rest) = (B64.of_nat k / 12.0)%float.
Proof.
  intros H. unfold B64.rank_value. cbn [idx nth_error]. rewrite H.
  reflexivity.
Qed.

(** X9.  For two hole cards with valid ranks, at positions k0 and k1 of
    [card_ranks], that are not pinned, the connector test succeeds exactly
    when the two ranks are the same (ranks one apart are 1/12 apart, more
    than 0.083), and the estimate is the clamp to [0.05, 0.95] of
    (strength + bonus) * stage factor, where the strength is
    (0 + k0 / 12.0 + k1 / 12.0) / 2 and the bonus is 0.15 for a suited
    pair, 0.07 for other suited cards, 0.08 for an offsuit pair and none
    otherwise, every operation rounded as the code rounds it. *)
Theorem X9_equity_by_ranks (s : B64.State) (r0 u0 r1 u1 : char)
    (t0 t1 : pystr) (k0 k1 : nat) (factor : float) :
  B64.hole_cards s = [r0 :: u0 :: t0; r1 :: u1 :: t1] ->
  index_of r0 card_ranks = Some k0 ->
  index_of r1 card_ranks = Some k1 ->
  pinned_pair (r0 :: u0 :: t0) (r1 :: u1 :: t1) = false ->
  B64.stage_factor (B64.stage s) = Ok factor ->
  (PrimFloat.abs (B64.of_nat k0 / 12.0 - B64.of_nat k1 / 12.0) <=? 0.083)%float
  = Nat.eqb k0 k1
  /\ B64.estimate_equity s
     = Ok (B64.pymax 0.05
             (B64.pymin 0.95
                (with_bonus (N.eqb u0 u1) (Nat.eqb k0 k1)
                   ((0 + B64.of_nat k0 / 12.0 + B64.of_nat k1 / 12.0) / 2)
                 * factor)))%float.
Proof.
  intros Hc H0 H1 Hp Hf.
  assert (Hgap := b64_rank_gap k0 k1 (index_of_lt _ _ _ H0)
                    (index_of_lt _ _ _ H1)).
  split; [exact Hgap |].
  unfold B64.estimate_equity.
  rewrite Hc. cbn [idx nth_error bind map].
  unfold pinned_pair in Hp.
  assert (P : (if contains Chars.c7 (r0 :: u0 :: t0)
               then Ok (contains Chars.c2 (r1 :: u1 :: t1)) else Ok false)
              = Ok false).
  { destruct (contains Chars.c7 (r0 :: u0 :: t0)); [| reflexivity].
    cbn [andb] in Hp. rewrite Hp. reflexivity. }
  rewrite P. cbn [bind].
  rewrite (b64_rank_value_valid r0 (u0 :: t0) k0 H0).
  rewrite (b64_rank_value_valid r1 (u1 :: t1) k1 H1).
  rewrite Hgap, Hf. cbn [bind]. reflexivity.
Qed.

Lemma X9_equity_by_ranks_witness :
  (PrimFloat.abs (B64.of_nat 12 / 12.0 - B64.of_nat 11 / 12.0) <=? 0.083)%float
  = Nat.eqb 12 11
  /\ B64.estimate_equity ace_king_b64
     = Ok (B64.pymax 0.05
             (B64.pymin 0.95
                (with_bonus (N.eqb Chars.spade Chars.heart) (Nat.eqb 12 11)
                   ((0 + B64.of_nat 12 / 12.0 + B64.of_nat 11 / 12.0) / 2)
                 * 0.8)))%float.
Proof.
  apply (X9_equity_by_ranks ace_king_b64
           Chars.cA Chars.spade Chars.cK Chars.heart [] [] 12 11 0.8%float);
    reflexivity.
Defined.

(** With two tokens of at least two characters and a stage other than
    TERMINAL the estimate exists. *)
Lemma estimate_equity_ok (s : State) :
  two_full_tokens (hole_cards s) -> stage s <> TERMINAL ->
  exists e, estimate_equity s = Ok e.
Proof.
  intros [c0 [c1 [Hc [H0 H1]]]] Hst.
  destruct c0 as [| r0 [| u0 t0]]; try (simpl in H0; lia).
  destruct c1 as [| r1 [| u1 t1]]; try (simpl in H1; lia).
  unfold estimate_equity. rewrite Hc. cbn [idx nth_error bind map].
  destruct (contains Chars.c7 (r0 :: u0 :: t0)); cbn [bind];
    [destruct (contains Chars.c2 (r1 :: u1 :: t1)) |];
    try (eexists; reflexivity);
    destruct (stage s); try contradiction; cbn [stage_factor bind];
    eexists; reflexivity.
Qed.

(** ** What the methods leave alone *)

Lemma same_table_refl (s : State) : same_table s s.
Proof. repeat split. Qed.

Lemma same_table_trans (s t u : State) :
  same_table s t -> same_table t u -> same_table s u.
Proof.
  unfold same_table. intros H1 H2.
  repeat match goal with H : _ /\ _ |- _ => destruct H end.
  repeat split; congruence.
Qed.

Lemma same_table_set_stage (g : GameStage) (s : State) :
  same_table s (set_stage g s).
Proof. repeat split. Qed.

Lemma same_table_is_bet_in_front (s : State) :
  same_table s (snd (is_bet_in_front s)).
Proof.
  unfold is_bet_in_front. destruct (rev (history s)) as [| e l];
    [apply same_table_refl |].
  destruct (Player_eqb (entry_actor e) VILLAIN
            && action_in (entry_action e) [BET; RAISE]);
    repeat split.
Qed.

Lemma same_table_optimal_action (coin : Q) (s : State) :
  same_table s (fst (optimal_action coin s)).
Proof. rewrite optimal_action_state. apply same_table_is_bet_in_front. Qed.

Lemma same_table_advance (s : State) : same_table s (advance s).
Proof. unfold advance. destruct (stage s); repeat split. Qed.

Lemma same_table_force_showdown (s : State) :
  same_table s (force_showdown s).
Proof.
  unfold force_showdown.
  destruct (Qeqb (hero_stack s) 0 || Qeqb (villain_stack s) 0);
    repeat split.
Qed.

(** [update_stage] changes the stage and, through [is_bet_in_front],
    [last_bet_amount]; nothing else. *)
Lemma same_table_update_stage (s : State) : same_table s (update_stage s).
Proof.
  unfold update_stage.
  destruct (rev (history s)) as [| e1 [| e2 l]];
    try apply same_table_refl.
  destruct (action_in FOLD [entry_action e2; entry_action e1]);
    [apply same_table_set_stage |].
  eapply same_table_trans; [| apply same_table_force_showdown].
  destruct (ActionType_eqb (entry_action e2) CHECK
            && ActionType_eqb (entry_action e1) CHECK);
    [apply same_table_advance |].
  destruct (ActionType_eqb (entry_action e1) CALL);
    [| apply same_table_refl].
  pose proof (same_table_is_bet_in_front s) as H.
  destruct (is_bet_in_front s) as [flag s']. cbn [snd] in H.
  destruct (negb flag); [| exact H].
  eapply same_table_trans; [exact H | apply same_table_advance].
Qed.

(** [execute_action] leaves the stage, the cards, the recorded expected
    values, the opponent and [initial_stack] alone. *)
Lemma execute_action_frame (pick : Q) (s : State) (action : ActionType)
    (bet_size : Q) :
  let s' := fst (execute_action pick s action bet_size) in
  stage s' = stage s /\ hole_cards s' = hole_cards s
  /\ decision_evs s' = decision_evs s
  /\ opponent_type s' = opponent_type s
  /\ initial_stack s' = initial_stack s.
Proof.
  unfold execute_action.
  match goal with
  | |- context [choices (opponent_response ?t action) pick] =>
      destruct (choices_response t action pick) as [resp [Hc _]];
      rewrite Hc
  end.
  destruct action, resp; repeat split.
Qed.

(** ** Sizes *)

(** The size that [optimal_action] returns lies between 0 and the hero's
    stack, provided that pot and stack are not negative and that the
    amount of the last history entry, if there is one, is not negative. *)
Lemma optimal_action_size (coin : Q) (s : State)
    (choice : ActionType * Q) (ev : Q) :
  0 <= pot s -> 0 <= hero_stack s ->
  (forall e, py_last (history s) = Ok e -> 0 <= entry_amount e) ->
  snd (optimal_action coin s) = Ok (choice, ev) ->
  0 <= snd choice <= hero_stack s.
Proof.
  intros Hpot Hhero Hlast.
  unfold optimal_action.
  destruct (is_bet_in_front s) as [flag s1] eqn:Ef.
  destruct flag.
  - assert (Hflag : fst (is_bet_in_front s) = true) by (rewrite Ef; auto).
    destruct (is_bet_in_front_true s Hflag) as [e0 [Hl [_ [_ Hs1]]]].
    rewrite Ef in Hs1. injection Hs1 as ->.
    change (history (set_last_bet_amount (entry_amount e0) s))
      with (history s).
    rewrite Hl. cbn [snd hero_stack last_bet_amount set_last_bet_amount].
    pose proof (Hlast e0 Hl) as Hamt.
    match goal with
    | |- bind (calculate_ev _ (fst ?c) (snd ?c)) _ = _ -> _ =>
        assert (Hc : 0 <= snd c <= hero_stack s);
        [| destruct (calculate_ev _ (fst c) (snd c)); cbn [bind];
           [intros H; injection H as <- _; exact Hc | discriminate]]
    end.
    destruct (action_in (entry_action e0) [CHECK; CALL] && _);
      [| destruct (Qltb coin 0.7 && _)]; cbn [snd];
      split_pymin; lra.
  - assert (Hs1 : s1 = s).
    { assert (Hflag : fst (is_bet_in_front s) = false) by (rewrite Ef; auto).
      rewrite (is_bet_in_front_false s Hflag) in Ef. congruence. }
    subst s1.
    destruct (GameStage_eqb (stage s) RIVER).
    + cbn [snd]. destruct (calculate_ev s BET _); cbn [bind];
        [| discriminate].
      intros H; injection H as <- _. cbn [snd]. split_pymin; lra.
    + destruct (get_bluff_action s) as [action bet_size0] eqn:Eb.
      assert (Hb : 0 <= bet_size0).
      { revert Eb. unfold get_bluff_action.
        destruct (GameStage_eqb (stage s) PREFLOP), (opponent_type s);
          intros H; injection H as _ <-; lra. }
      destruct (Qltb 0 (pymin bet_size0 (hero_stack s))
                && Qltb 0 (hero_stack s)); cbn [snd];
        match goal with
        | |- bind ?c _ = _ -> _ =>
            destruct c; cbn [bind]; [| discriminate]
        end;
        intros H; injection H as <- _; cbn [snd];
        [split_pymin; lra | lra].
Qed.

(** X10.  [optimal_action] never sizes a bet below 0 or above the hero's
    stack: for a state whose pot, hero stack and last recorded amount are
    not negative, the size it returns lies in [0, hero_stack]. *)
Theorem X10_size_within_stack (coin : Q) (s : State)
    (choice : ActionType * Q) (ev : Q) :
  0 <= pot s -> 0 <= hero_stack s ->
  (forall e, py_last (history s) = Ok e -> 0 <= entry_amount e) ->
  snd (optimal_action coin s) = Ok (choice, ev) ->
  0 <= snd choice <= hero_stack s.
Proof. apply optimal_action_size. Qed.

Lemma X10_size_within_stack_witness :
  0 <= snd (CALL, 6.0) <= hero_stack after_reraise.
Proof.
  apply (X10_size_within_stack 0.9 after_reraise (CALL, 6.0) 0.00).
  - vm_compute. discriminate.
  - vm_compute. discriminate.
  - intros e H. vm_compute in H. injection H as <-.
    vm_compute. discriminate.
  - vm_compute. reflexivity.
Defined.

(** ** Reasoning about the loop of [simulate_hand] *)

Section LoopRelation.

(** [R s t c s' t' c'] relates the state and the two counters at the
    head of the loop to those with which the loop stops. *)
Variable R : State -> Q -> Z -> State -> Q -> Z -> Prop.

Hypothesis R_stay : forall s t c,
    stage_in (stage s) [TERMINAL; SHOWDOWN] = true -> R s t c s t c.

Hypothesis R_fail : forall s s1 t c, loop_fail s s1 -> R s t c s1 t c.

Hypothesis R_stop : forall s ev resp s4 g t c,
    loop_pass s ev resp s4 ->
    (g = TERMINAL /\ resp = FOLD)
    \/ (g = SHOWDOWN /\ resp <> FOLD /\ stack_empty s4 = true) ->
    R s t c (set_stage g s4) (t + ev) (c + 1)%Z.

Hypothesis R_next : forall s ev resp s4 t c s' t' c',
    loop_pass s ev resp s4 ->
    resp <> FOLD -> stack_empty s4 = false ->
    R s4 (t + ev) (c + 1)%Z s' t' c' ->
    R s t c s' t' c'.

Lemma hand_loop_related (draws : list (Q * Q)) :
  forall s t c s' t' c',
    hand_loop draws s t c = Some (Stopped s' t' c') ->
    R s t c s' t' c'.
Proof.
  induction draws as [| [coin pick] rest IH]; intros s t c s' t' c';
    cbn [hand_loop];
    destruct (stage_in (stage s) [TERMINAL; SHOWDOWN]) eqn:Est;
    try (intros H; injection H as <- <- <-; apply R_stay; exact Est);
    try discriminate.
  destruct (optimal_action coin s) as [s1 [[[action bet_size] ev] | e]]
    eqn:Hopt.
  - destruct (execute_action pick _ action bet_size) as [s3 r] eqn:Hexe.
    destruct (execute_action_shape pick
                (set_decision_evs (decision_evs s1 ++ [ev]) s1)
                action bet_size) as [resp [Hr _]].
    rewrite Hexe in Hr. cbn [snd] in Hr. subst r.
    assert (Hpass : loop_pass s ev resp (update_stage s3))
      by (econstructor; eauto).
    destruct (ActionType_eqb resp FOLD) eqn:Ef.
    + intros H; injection H as <- <- <-.
      apply ActionType_eqb_eq in Ef.
      apply (R_stop s ev resp); auto.
    + apply ActionType_eqb_neq in Ef.
      destruct (stack_empty (update_stage s3)) eqn:Ee.
      * intros H; injection H as <- <- <-.
        apply (R_stop s ev resp); auto.
      * intros H. apply (R_next s ev resp (update_stage s3)); auto.
  - intros H; injection H as <- <- <-.
    apply R_fail. exists coin, e. auto.
Qed.

End LoopRelation.

(** What one pass does to the table. *)
Lemma loop_pass_facts (s : State) (ev : Q) (resp : ActionType)
    (s4 : State) :
  loop_pass s ev resp s4 ->
  exists action bet_size amount,
    In action [CHECK; CALL; BET; RAISE]
    /\ history s4
       = history s ++ [(HERO, action, bet_size); (VILLAIN, resp, amount)]
    /\ decision_evs s4 = decision_evs s ++ [ev]
    /\ hole_cards s4 = hole_cards s
    /\ opponent_type s4 = opponent_type s
    /\ initial_stack s4 = initial_stack s
    /\ (resp <> FOLD -> stage s4 <> TERMINAL)
    /\ (stage_value (stage s) <= stage_value (stage s4))%Z.
Proof.
  intros [coin pick s1 action bet_size s3 Hst Hopt Hexe ->].
  pose proof (stage_in_final _ Hst) as Hnt.
  destruct (pass_outcome coin pick s s1 s3 action bet_size ev (Ok resp)
              Hnt Hopt Hexe) as [resp' [amount [E [Hh Hterm]]]].
  injection E as <-.
  assert (Hact : In action [CHECK; CALL; BET; RAISE]).
  { apply (optimal_action_actions coin s (action, bet_size) ev).
    rewrite Hopt. reflexivity. }
  pose proof (same_table_optimal_action coin s) as T1.
  rewrite Hopt in T1. cbn [fst] in T1.
  destruct T1 as [Tp [Th [Tv [_ [Tc [Te [_ [To Ti]]]]]]]].
  pose proof (execute_action_frame pick
                (set_decision_evs (decision_evs s1 ++ [ev]) s1)
                action bet_size) as F.
  rewrite Hexe in F. cbn [fst] in F.
  destruct F as [Fs [Fc [Fe [Fo Fi]]]].
  cbn [stage hole_cards decision_evs opponent_type initial_stack
       set_decision_evs] in Fs, Fc, Fe, Fo, Fi.
  destruct (same_table_update_stage s3)
    as [Up [Uh [Uv [_ [Uc [Ue [_ [Uo Ui]]]]]]]].
  exists action, bet_size, amount.
  split; [exact Hact |]. split.
  { rewrite Hh, <- app_assoc. reflexivity. }
  split; [congruence |]. split; [congruence |]. split; [congruence |].
  split; [congruence |].
  split; [exact Hterm |].
  (* the stage does not go back *)
  assert (Hs3 : stage s3 = stage s).
  { rewrite Fs. pose proof (optimal_action_state coin s) as E.
    rewrite Hopt in E. cbn [fst] in E. rewrite E.
    apply is_bet_in_front_frame. }
  rewrite <- Hs3. rewrite <- Hs3 in Hst.
  unfold update_stage.
  destruct (rev (history s3)) as [| e1 [| e2 l]]; try lia.
  destruct (action_in FOLD [entry_action e2; entry_action e1]).
  { cbn [stage set_stage]. destruct (stage s3); cbn; lia. }
  rewrite force_showdown_stage.
  match goal with
  | |- context [stack_empty ?x] => destruct (stack_empty x)
  end.
  { destruct (stage s3); try discriminate Hst; cbn; lia. }
  destruct (ActionType_eqb (entry_action e2) CHECK
            && ActionType_eqb (entry_action e1) CHECK).
  { rewrite stage_advance. destruct (stage s3); cbn; lia. }
  destruct (ActionType_eqb (entry_action e1) CALL); [| lia].
  pose proof (is_bet_in_front_frame s3) as [G _].
  destruct (is_bet_in_front s3) as [flag s']. cbn [snd] in G.
  destruct (negb flag); [rewrite stage_advance |]; rewrite G;
    destruct (stage s3); cbn; lia.
Qed.

Lemma loop_fail_facts (s s1 : State) :
  loop_fail s s1 ->
  same_table s s1 /\ stage s1 = stage s
  /\ stage s1 = RIVER /\ exists e, estimate_equity s1 = Raise e.
Proof.
  intros [coin [e [Hst Hopt]]].
  pose proof (same_table_optimal_action coin s) as T.
  pose proof (optimal_action_state coin s) as E.
  pose proof (optimal_action_raise coin s e) as Hr.
  rewrite Hopt in T, E, Hr. cbn [fst snd] in T, E, Hr.
  destruct (Hr eq_refl) as [Hriver Heq].
  split; [exact T |]. split.
  - rewrite E. apply is_bet_in_front_frame.
  - split; [exact Hriver | exists e; exact Heq].
Qed.

(** ** Invariants of the loop *)

Lemma py_last_Forall {A : Type} (P : A -> Prop) (l : list A) (x : A) :
  Forall P l -> py_last l = Ok x -> P x.
Proof.
  intros Hf. apply Forall_rev in Hf. unfold py_last.
  destruct (rev l) as [| y l']; [discriminate |].
  intros H; injection H as <-. inversion Hf; assumption.
Qed.

Lemma execute_action_nonneg (pick : Q) (s : State) (action : ActionType)
    (bet_size : Q) :
  nonneg_state s -> 0 <= bet_size ->
  nonneg_state (fst (execute_action pick s action bet_size)).
Proof.
  intros [Hp [Hh [Hv Hf]]] Hb. unfold execute_action.
  match goal with
  | |- context [choices (opponent_response ?t action) pick] =>
      destruct (choices_response t action pick) as [resp [Hc _]];
      rewrite Hc
  end.
  unfold nonneg_state.
  destruct action, resp; cbn -[pymin Qplus Qminus Qmult Qle];
    (split; [| split; [| split]]);
    try (split_pymin; lra);
    repeat (apply Forall_app; split); try exact Hf;
    repeat constructor; cbn -[pymin Qplus Qminus Qmult Qle];
    split_pymin; lra.
Qed.

Lemma nonneg_same_table (s t : State) :
  same_table s t -> nonneg_state s -> nonneg_state t.
Proof.
  intros [Tp [Th [Tv [Thi _]]]] H. unfold nonneg_state in *.
  rewrite Tp, Th, Tv, Thi. exact H.
Qed.

Lemma loop_pass_nonneg (s : State) (ev : Q) (resp : ActionType)
    (s4 : State) :
  loop_pass s ev resp s4 -> nonneg_state s -> nonneg_state s4.
Proof.
  intros [coin pick s1 action bet_size s3 Hst Hopt Hexe ->] Hn.
  assert (Hb : 0 <= bet_size <= hero_stack s).
  { destruct Hn as [Hp [Hh [_ Hf]]].
    apply (optimal_action_size coin s (action, bet_size) ev Hp Hh).
    - intros e He. exact (py_last_Forall _ _ _ Hf He).
    - rewrite Hopt. reflexivity. }
  pose proof (same_table_optimal_action coin s) as T.
  rewrite Hopt in T. cbn [fst] in T.
  apply (nonneg_same_table s3); [apply same_table_update_stage |].
  pose proof (execute_action_nonneg pick
                (set_decision_evs (decision_evs s1 ++ [ev]) s1)
                action bet_size) as E.
  rewrite Hexe in E. cbn [fst] in E. apply E; [| tauto].
  apply (nonneg_same_table s s1 T) in Hn. exact Hn.
Qed.

(** X13.  No amount goes negative during a hand: when pot, stacks and the
    recorded amounts are non-negative at the head of the loop of
    [simulate_hand], they are non-negative when the loop stops. *)
Theorem X13_loop_keeps_nonneg (draws : list (Q * Q)) (s : State)
    (t : Q) (c : Z) (s' : State) (t' : Q) (c' : Z) :
  nonneg_state s ->
  hand_loop draws s t c = Some (Stopped s' t' c') ->
  nonneg_state s'.
Proof.
  intros Hn Hl. revert Hn.
  apply (hand_loop_related
           (fun s _ _ s' _ _ => nonneg_state s -> nonneg_state s')
           ) with (draws := draws) (t := t) (c := c) (t' := t') (c' := c');
    [| | | | exact Hl].
  - auto.
  - intros s0 s1 _ _ Hf. destruct (loop_fail_facts s0 s1 Hf) as [T _].
    apply (nonneg_same_table s0 s1 T).
  - intros s0 ev resp s4 g _ _ Hp _ Hn.
    exact (loop_pass_nonneg s0 ev resp s4 Hp Hn).
  - intros s0 ev resp s4 _ _ s1 _ _ Hp _ _ Hrec Hn.
    apply Hrec. exact (loop_pass_nonneg s0 ev resp s4 Hp Hn).
Qed.

Lemma X13_loop_keeps_nonneg_witness :
  exists s' t' c',
    hand_loop sample_draws scenario_A 0 0%Z
    = Some (Stopped s' t' c')
    /\ nonneg_state s'.
Proof.
  destruct (hand_loop sample_draws scenario_A 0 0%Z) as [[s' t' c'] |] eqn:E;
    [| vm_compute in E; discriminate E].
  exists s', t', c'. split; [reflexivity |].
  apply (X13_loop_keeps_nonneg sample_draws scenario_A 0 0%Z s' t' c');
    [| exact E].
  unfold nonneg_state.
  split; [vm_compute; discriminate |].
  split; [vm_compute; discriminate |].
  split; [vm_compute; discriminate |].
  apply Forall_nil.
Defined.

(** X14.  The stage never goes back during a hand: with the values of the
    enumeration (PREFLOP 0 up to SHOWDOWN 4 and TERMINAL 5), the stage at
    which the loop of [simulate_hand] stops is at least the stage at which
    it started. *)
Theorem X14_stage_never_goes_back (draws : list (Q * Q)) (s : State)
    (t : Q) (c : Z) (s' : State) (t' : Q) (c' : Z) :
  hand_loop draws s t c = Some (Stopped s' t' c') ->
  (stage_value (stage s) <= stage_value (stage s'))%Z.
Proof.
  apply (hand_loop_related
           (fun s _ _ s' _ _ =>
              (stage_value (stage s) <= stage_value (stage s'))%Z)).
  - intros; lia.
  - intros s0 s1 _ _ Hf. destruct (loop_fail_facts s0 s1 Hf) as [_ [E _]].
    rewrite E. lia.
  - intros s0 ev resp s4 g _ _ Hp Hg.
    destruct Hp as [coin pick s1 action bet_size s3 Hst _ _ _].
    cbn [stage set_stage].
    destruct Hg as [[-> _] | [-> _]];
      destruct (stage s0); try discriminate Hst; cbn; lia.
  - intros s0 ev resp s4 _ _ s1 _ _ Hp _ _ Hrec.
    destruct (loop_pass_facts s0 ev resp s4 Hp)
      as [a [b [amt [_ [_ [_ [_ [_ [_ [_ Hs]]]]]]]]]].
    lia.
Qed.

Lemma X14_stage_never_goes_back_witness :
  exists s' t' c',
    hand_loop sample_draws scenario_A 0 0%Z
    = Some (Stopped s' t' c')
    /\ (stage_value (stage scenario_A) <= stage_value (stage s'))%Z.
Proof.
  destruct (hand_loop sample_draws scenario_A 0 0%Z) as [[s' t' c'] |] eqn:E;
    [| vm_compute in E; discriminate E].
  exists s', t', c'. split; [reflexivity |].
  exact (X14_stage_never_goes_back sample_draws scenario_A 0 0%Z s' t' c' E).
Defined.

(** The loop keeps the cards, the opponent and [initial_stack]. *)
Lemma hand_loop_same_hand (draws : list (Q * Q)) (s : State)
    (t : Q) (c : Z) (s' : State) (t' : Q) (c' : Z) :
  hand_loop draws s t c = Some (Stopped s' t' c') ->
  hole_cards s' = hole_cards s /\ opponent_type s' = opponent_type s
  /\ initial_stack s' = initial_stack s.
Proof.
  apply (hand_loop_related
           (fun s _ _ s' _ _ =>
              hole_cards s' = hole_cards s
              /\ opponent_type s' = opponent_type s
              /\ initial_stack s' = initial_stack s)).
  - auto.
  - intros s0 s1 _ _ Hf. destruct (loop_fail_facts s0 s1 Hf) as [T _].
    unfold same_table in T. tauto.
  - intros s0 ev resp s4 g _ _ Hp _.
    destruct (loop_pass_facts s0 ev resp s4 Hp)
      as [a [b [amt [_ [_ [_ [Hc [Ho [Hi _]]]]]]]]].
    auto.
  - intros s0 ev resp s4 _ _ s1 _ _ Hp _ _ [R1 [R2 R3]].
    destruct (loop_pass_facts s0 ev resp s4 Hp)
      as [a [b [amt [_ [_ [_ [Hc [Ho [Hi _]]]]]]]]].
    repeat split; congruence.
Qed.


(** What a successful resolution returns and does. *)
Lemma resolve_ok (show : Q) (s : State) (total : Q) (count : Z)
    (s' : State) (res : HandResult) :
  resolve show s total count = (s', Ok res) ->
  res_total_ev res = total /\ res_decision_count res = count
  /\ avg_ev res = average_ev total count
  /\ net_profit res = hero_stack s' - initial_stack s
  /\ same_table (set_villain_stack (villain_stack s')
                   (set_hero_stack (hero_stack s') s)) s'
  /\ stage s' = stage s
  /\ ((winner res = "Hero"%string
       /\ hero_stack s' = hero_stack s + pot s
       /\ villain_stack s' = villain_stack s)
      \/ (winner res = "Villain"%string
          /\ hero_stack s' = hero_stack s
          /\ villain_stack s' = villain_stack s + pot s)).
Proof.
  unfold resolve. destruct (GameStage_eqb (stage s) TERMINAL).
  - destruct (py_last (history s)) as [last_action |]; [| discriminate].
    destruct (Player_eqb (entry_actor last_action) VILLAIN
              && ActionType_eqb (entry_action last_action) FOLD);
      intros H; injection H as <- <-; cbn; repeat split; auto.
  - destruct (estimate_equity s) as [hero_equity |]; [| discriminate].
    destruct (Qltb show hero_equity);
      intros H; injection H as <- <-; cbn; repeat split; auto.
Qed.


(** ** The statistics of a hand *)

Lemma pysum_acc (l : list Q) (a : Q) :
  fold_left Qplus l a == a + fold_left Qplus l 0.
Proof.
  revert a. induction l as [| x l IH]; intros a; cbn [fold_left].
  - ring.
  - rewrite (IH (a + x)), (IH (0 + x)). ring.
Qed.

Lemma pysum_cons (x : Q) (l : list Q) : pysum (x :: l) == x + pysum l.
Proof. unfold pysum. cbn [fold_left]. rewrite pysum_acc. ring. Qed.

(** The loop counts one decision, adds one expected value and records two
    history entries per completed pass. *)
Lemma hand_loop_books (draws : list (Q * Q)) (s : State)
    (t : Q) (c : Z) (s' : State) (t' : Q) (c' : Z) :
  hand_loop draws s t c = Some (Stopped s' t' c') ->
  exists evs,
    decision_evs s' = decision_evs s ++ evs
    /\ c' = (c + Z.of_nat (List.length evs))%Z
    /\ t' == t + pysum evs
    /\ List.length (history s')
       = (List.length (history s) + 2 * List.length evs)%nat.
Proof.
  apply (hand_loop_related
           (fun s t c s' t' c' =>
              exists evs,
                decision_evs s' = decision_evs s ++ evs
                /\ c' = (c + Z.of_nat (List.length evs))%Z
                /\ t' == t + pysum evs
                /\ List.length (history s')
                   = (List.length (history s) + 2 * List.length evs)%nat)).
  - intros s0 t0 c0 _. exists []. rewrite app_nil_r. cbn.
    repeat split; try lia. unfold pysum; cbn; ring.
  - intros s0 s1 t0 c0 Hf. destruct (loop_fail_facts s0 s1 Hf) as [T _].
    destruct T as [_ [_ [_ [Hh [_ [He _]]]]]].
    exists []. rewrite app_nil_r, He, Hh. cbn.
    repeat split; try lia. unfold pysum; cbn; ring.
  - intros s0 ev resp s4 g t0 c0 Hp _.
    destruct (loop_pass_facts s0 ev resp s4 Hp)
      as [a [b [amt [_ [Hh [He _]]]]]].
    exists [ev]. cbn [decision_evs history set_stage].
    rewrite He, Hh, length_app. cbn.
    repeat split; try lia. unfold pysum; cbn; ring.
  - intros s0 ev resp s4 t0 c0 s1 t1 c1 Hp _ _ [evs [R1 [R2 [R3 R4]]]].
    destruct (loop_pass_facts s0 ev resp s4 Hp)
      as [a [b [amt [_ [Hh [He _]]]]]].
    exists (ev :: evs).
    rewrite R1, He, <- app_assoc. split; [reflexivity |].
    rewrite R4, Hh, length_app. cbn [List.length].
    repeat split; try lia.
    rewrite R3, pysum_cons. ring.
Qed.

(** X16.  The statistics that [simulate_hand] returns match what it wrote
    down: the expected values appended to [decision_evs] during the hand
    are as many as the decision count, they sum to the total that is
    returned, and the history grew by exactly two entries per decision. *)
Theorem X16_statistics_match_log (draws : list (Q * Q)) (show : Q)
    (s s' : State) (res : HandResult) :
  simulate_hand draws show s = Some (s', Ok res) ->
  exists evs,
    decision_evs s' = decision_evs s ++ evs
    /\ res_decision_count res = Z.of_nat (List.length evs)
    /\ res_total_ev res == pysum evs
    /\ List.length (history s')
       = (List.length (history s) + 2 * List.length evs)%nat.
Proof.
  intros Hsim. unfold simulate_hand in Hsim.
  destruct (hand_loop draws s 0 0%Z) as [[s1 total count] |] eqn:Hloop;
    [| discriminate].
  injection Hsim as Hsim.
  destruct (hand_loop_books draws s 0 0%Z s1 total count Hloop)
    as [evs [B1 [B2 [B3 B4]]]].
  destruct (resolve_ok show s1 total count s' res Hsim)
    as [Rt [Rc [_ [_ [T _]]]]].
  destruct T as [_ [_ [_ [Th [_ [Te _]]]]]]. cbn in Th, Te.
  exists evs. rewrite Rt, Rc, Te, Th.
  repeat split; auto. rewrite B3. ring.
Qed.

Lemma X16_statistics_match_log_witness :
  exists s' res evs,
    simulate_hand sample_draws 0 scenario_A = Some (s', Ok res)
    /\ decision_evs s' = decision_evs scenario_A ++ evs
    /\ res_decision_count res = Z.of_nat (List.length evs)
    /\ res_total_ev res == pysum evs
    /\ List.length (history s')
       = (List.length (history scenario_A) + 2 * List.length evs)%nat.
Proof.
  destruct (simulate_hand sample_draws 0 scenario_A) as [[s' [res | e]] |]
    eqn:E; try (vm_compute in E; discriminate E).
  destruct (X16_statistics_match_log sample_draws 0 scenario_A s' res E)
    as [evs H].
  exists s', res, evs. split; [reflexivity | exact H].
Defined.

(** X17.  [simulate_hand] pays the pot to the winner it reports and leaves
    the pot as it is.  With [s1] the state in which the loop stopped: the
    pot of the final state is the pot of [s1]; either the winner is "Hero",
    the hero's stack is that of [s1] plus the pot and the villain's stack is
    unchanged, or the winner is "Villain", the villain's stack is that of
    [s1] plus the pot and the hero's stack is unchanged; and the net profit
    is the hero's final stack minus the [initial_stack] of the start. *)
Theorem X17_pot_paid_not_cleared (draws : list (Q * Q)) (show : Q)
    (s s' : State) (res : HandResult) :
  simulate_hand draws show s = Some (s', Ok res) ->
  exists s1 total count,
    hand_loop draws s 0 0%Z = Some (Stopped s1 total count)
    /\ pot s' = pot s1
    /\ ((winner res = "Hero"%string
         /\ hero_stack s' = hero_stack s1 + pot s1
         /\ villain_stack s' = villain_stack s1)
        \/ (winner res = "Villain"%string
            /\ hero_stack s' = hero_stack s1
            /\ villain_stack s' = villain_stack s1 + pot s1))
    /\ net_profit res = hero_stack s' - initial_stack s.
Proof.
  intros Hsim. unfold simulate_hand in Hsim.
  destruct (hand_loop draws s 0 0%Z) as [[s1 total count] |] eqn:Hloop;
    [| discriminate].
  injection Hsim as Hsim.
  destruct (hand_loop_same_hand draws s 0 0%Z s1 total count Hloop)
    as [_ [_ Hinit]].
  destruct (resolve_ok show s1 total count s' res Hsim)
    as [_ [_ [_ [Hnet [T [_ Hw]]]]]].
  destruct T as [Tp _]. cbn in Tp.
  exists s1, total, count.
  split; [reflexivity |]. split; [exact Tp |]. split; [exact Hw |].
  rewrite Hnet, Hinit. reflexivity.
Qed.

Lemma X17_pot_paid_not_cleared_witness :
  exists s' res s1 total count,
    simulate_hand sample_draws 0 scenario_A = Some (s', Ok res)
    /\ hand_loop sample_draws scenario_A 0 0%Z
       = Some (Stopped s1 total count)
    /\ pot s' = pot s1
    /\ ((winner res = "Hero"%string
         /\ hero_stack s' = hero_stack s1 + pot s1
         /\ villain_stack s' = villain_stack s1)
        \/ (winner res = "Villain"%string
            /\ hero_stack s' = hero_stack s1
            /\ villain_stack s' = villain_stack s1 + pot s1))
    /\ net_profit res = hero_stack s' - initial_stack scenario_A.
Proof.
  destruct (simulate_hand sample_draws 0 scenario_A) as [[s' [res | e]] |]
    eqn:E; try (vm_compute in E; discriminate E).
  destruct (X17_pot_paid_not_cleared sample_draws 0 scenario_A s' res E)
    as [s1 [total [count H]]].
  exists s', res, s1, total, count. split; [reflexivity | exact H].
Defined.

(** ** Failures of a decision *)

(** [estimate_equity] raises [IndexError], or [KeyError] at stage
    TERMINAL, and nothing else. *)
Lemma estimate_equity_raise (s : State) (e : exn) :
  estimate_equity s = Raise e ->
  e = IndexError \/ (e = KeyError /\ stage s = TERMINAL).
Proof.
  unfold estimate_equity.
  assert (Hlast : forall k : Q -> result Q,
             (forall x, exists y, k x = Ok y) ->
             bind (stage_factor (stage s)) k = Raise e ->
             e = IndexError \/ (e = KeyError /\ stage s = TERMINAL)).
  { intros k Hk. destruct (stage s); cbn [stage_factor bind];
      try (intros H; injection H as <-; right; split; reflexivity);
      match goal with
      | |- k ?x = _ -> _ => destruct (Hk x) as [y ->]; discriminate
      end. }
  repeat match goal with
    | |- bind (idx ?l ?i) _ = Raise _ -> _ =>
        let H := fresh "Hidx" in
        let H' := fresh "Hr" in
        destruct (idx l i) eqn:H; cbn [bind];
        [| apply idx_raise in H; subst;
           intros H'; injection H' as <-; left; reflexivity]
    | |- bind (if ?b then _ else _) _ = Raise _ -> _ => destruct b
    | |- bind (Ok _) _ = Raise _ -> _ => cbn [bind]
    | |- bind (bind (idx ?l ?i) _) _ = Raise _ -> _ =>
        let H := fresh "Hidx" in
        let H' := fresh "Hr" in
        destruct (idx l i) eqn:H; cbn [bind];
        [| apply idx_raise in H; subst;
           intros H'; injection H' as <-; left; reflexivity]
    | |- (if ?b then _ else _) = Raise _ -> _ =>
        destruct b; [discriminate |]
    end.
  all: apply Hlast; intros x; eexists; reflexivity.
Qed.

(** X18.  [optimal_action] can fail in one way only: with [IndexError],
    on the river, when the hole cards are not two tokens of at least two
    characters.  Before the river it returns a decision whatever the hole
    cards are. *)
Theorem X18_decision_failure (coin : Q) (s : State) (e : exn) :
  snd (optimal_action coin s) = Raise e ->
  stage s = RIVER /\ e = IndexError /\ ~ two_full_tokens (hole_cards s).
Proof.
  intros H. destruct (optimal_action_raise coin s e H) as [Hr He].
  destruct (same_table_optimal_action coin s) as [_ [_ [_ [_ [Hc _]]]]].
  assert (Hs : stage (fst (optimal_action coin s)) = stage s).
  { rewrite optimal_action_state. apply is_bet_in_front_frame. }
  split; [congruence |]. split.
  - destruct (estimate_equity_raise _ _ He) as [-> | [_ Ht]];
      [reflexivity | congruence].
  - intros Hfull.
    destruct (estimate_equity_ok (fst (optimal_action coin s))) as [x Hx].
    + rewrite Hc. exact Hfull.
    + rewrite Hr. discriminate.
    + congruence.
Qed.

Lemma X18_decision_failure_witness :
  stage suitless_river = RIVER /\ IndexError = IndexError
  /\ ~ two_full_tokens (hole_cards suitless_river).
Proof.
  apply (X18_decision_failure 0 suitless_river IndexError). reflexivity.
Defined.

(** ** [__init__] and [start_hand] *)

(** X19.  [start_hand] never touches the stacks; it takes the hero's
    current stack as [initial_stack], empties the history and both logs,
    and sets stage and pot by the last of [flop], [turn], [river] that is
    given and not empty: river gives (RIVER, 16), else turn (TURN, 8), else
    flop (FLOP, 4), else (PREFLOP, 1.5), whatever was given before it. *)
Theorem X19_start_hand_resets (s : State) (cards : list pystr)
    (flop : option (list pystr)) (turn river : option board_item) :
  let s' := start_hand s cards flop turn river in
  hero_stack s' = hero_stack s /\ villain_stack s' = villain_stack s
  /\ initial_stack s' = hero_stack s
  /\ hole_cards s' = cards
  /\ history s' = [] /\ decision_tree s' = [] /\ decision_evs s' = []
  /\ last_bet_amount s' = 0
  /\ (stage s', pot s')
     = (if truthy_item river then (RIVER, 16.0)
        else if truthy_item turn then (TURN, 8.0)
        else if truthy_list flop then (FLOP, 4.0)
        else (PREFLOP, 1.5)).
Proof.
  destruct river as [[[| ? ?] | [| ? ?]] |];
    destruct turn as [[[| ? ?] | [| ? ?]] |];
    destruct flop as [[| ? ?] |];
    cbv zeta; repeat (split; [reflexivity |]); reflexivity.
Qed.


(** ** More on the loop *)

(** The decision count never decreases, and a pass that starts at a street
    with two full tokens is counted. *)
Lemma hand_loop_counts (draws : list (Q * Q)) (s : State)
    (t : Q) (c : Z) (s' : State) (t' : Q) (c' : Z) :
  hand_loop draws s t c = Some (Stopped s' t' c') ->
  (c <= c')%Z
  /\ (stage_in (stage s) [TERMINAL; SHOWDOWN] = false ->
      two_full_tokens (hole_cards s) -> (c + 1 <= c')%Z).
Proof.
  apply (hand_loop_related
           (fun s _ c _ _ c' =>
              (c <= c')%Z
              /\ (stage_in (stage s) [TERMINAL; SHOWDOWN] = false ->
                  two_full_tokens (hole_cards s) -> (c + 1 <= c')%Z))).
  - intros s0 _ c0 Hfin. split; [lia |]. congruence.
  - intros s0 s1 _ c0 Hf. split; [lia |]. intros _ Hc. exfalso.
    destruct (loop_fail_facts s0 s1 Hf) as [T [_ [Hr [e He]]]].
    destruct (estimate_equity_ok s1) as [x Hx].
    + destruct T as [_ [_ [_ [_ [E _]]]]]. rewrite E. exact Hc.
    + rewrite Hr. discriminate.
    + congruence.
  - intros; lia.
  - intros s0 ev resp s4 _ c0 s1 _ c1 _ _ _ [Hle _]. lia.
Qed.

(** X21.  A hand that starts at one of the four streets with two full
    hole-card tokens makes at least one decision, so the average that
    [simulate_hand] returns is the total divided by the count. *)
Theorem X21_at_least_one_decision (draws : list (Q * Q)) (show : Q)
    (s s' : State) (res : HandResult) :
  stage_in (stage s) [TERMINAL; SHOWDOWN] = false ->
  two_full_tokens (hole_cards s) ->
  simulate_hand draws show s = Some (s', Ok res) ->
  (1 <= res_decision_count res)%Z
  /\ avg_ev res = res_total_ev res / inject_Z (res_decision_count res).
Proof.
  intros Hst Hc Hsim. unfold simulate_hand in Hsim.
  destruct (hand_loop draws s 0 0%Z) as [[s1 total count] |] eqn:Hloop;
    [| discriminate].
  injection Hsim as Hsim.
  destruct (hand_loop_counts draws s 0 0%Z s1 total count Hloop)
    as [_ Hone].
  specialize (Hone Hst Hc).
  destruct (resolve_ok show s1 total count s' res Hsim)
    as [Rt [Rc [Ra _]]].
  rewrite Rt, Rc, Ra. split; [lia |].
  unfold average_ev. destruct (0 <? count)%Z eqn:E; [reflexivity |].
  apply Z.ltb_ge in E. lia.
Qed.

Lemma X21_at_least_one_decision_witness :
  exists s' res,
    simulate_hand sample_draws 0 scenario_A = Some (s', Ok res)
    /\ (1 <= res_decision_count res)%Z
    /\ avg_ev res = res_total_ev res / inject_Z (res_decision_count res).
Proof.
  destruct (simulate_hand sample_draws 0 scenario_A) as [[s' [res | e]] |]
    eqn:E; try (vm_compute in E; discriminate E).
  exists s', res. split; [reflexivity |].
  apply (X21_at_least_one_decision sample_draws 0 scenario_A s' res).
  - reflexivity.
  - exists seven_diamonds, two_clubs.
    split; [reflexivity |]. split; simpl; lia.
  - exact E.
Defined.

(** X22.  The check-check rule of [update_stage]: when the last two
    entries of the history are both CHECK and both stacks are non-zero,
    the stage moves one step along PREFLOP, FLOP, TURN, RIVER, SHOWDOWN
    (and stays where it is at SHOWDOWN and TERMINAL). *)
Theorem X22_check_check_advances (s : State) (h : list HistoryEntry)
    (e2 e1 : HistoryEntry) :
  history s = h ++ [e2; e1] ->
  entry_action e2 = CHECK -> entry_action e1 = CHECK ->
  ~ hero_stack s == 0 -> ~ villain_stack s == 0 ->
  stage (update_stage s) = next_stage (stage s).
Proof.
  intros Hh H2 H1 Hhero Hvil.
  assert (Hne : stack_empty s = false) by (apply stack_empty_false; auto).
  rewrite (update_stage_no_fold s h e2 e1 Hh);
    [| rewrite H2; discriminate | rewrite H1; discriminate].
  rewrite H2, H1. cbn [ActionType_eqb andb orb].
  rewrite force_showdown_stage, stack_empty_advance, Hne.
  apply stage_advance.
Qed.

Lemma X22_check_check_advances_witness :
  stage (update_stage
           (set_history [(HERO, CHECK, 0); (VILLAIN, CHECK, 0)]
              (state_with TIGHT_PASSIVE FLOP [ace_spades; king_hearts])))
  = next_stage FLOP.
Proof.
  apply (X22_check_check_advances
           (set_history [(HERO, CHECK, 0); (VILLAIN, CHECK, 0)]
              (state_with TIGHT_PASSIVE FLOP [ace_spades; king_hearts]))
           [] (HERO, CHECK, 0) (VILLAIN, CHECK, 0));
    try reflexivity; vm_compute; discriminate.
Defined.

(** ** Pot and stacks along a hand *)

(** CHECK is only ever returned with size 0. *)
Lemma optimal_action_check_size (coin : Q) (s : State) (bet_size ev : Q) :
  snd (optimal_action coin s) = Ok ((CHECK, bet_size), ev) ->
  bet_size = 0.
Proof.
  unfold optimal_action. destruct (is_bet_in_front s) as [flag s1].
  destruct flag.
  - destruct (py_last (history s1)) as [last_entry |]; [| discriminate].
    cbn [snd].
    destruct (action_in (entry_action last_entry) [CHECK; CALL] && _);
      [| destruct (Qltb coin 0.7 && _)]; cbn [fst snd];
      match goal with
      | |- bind ?c _ = _ -> _ => destruct c; cbn [bind]; [| discriminate]
      end; intros H; discriminate H.
  - destruct (GameStage_eqb (stage s1) RIVER).
    + cbn [snd]. destruct (calculate_ev s1 BET _); cbn [bind];
        [| discriminate]. intros H; discriminate H.
    + destruct (get_bluff_action s1) as [action bet_size0] eqn:Eb.
      assert (Ha : action <> CHECK).
      { revert Eb. unfold get_bluff_action.
        destruct (GameStage_eqb (stage s1) PREFLOP), (opponent_type s1);
          intros H; injection H as <- _; discriminate. }
      destruct (Qltb 0 (pymin bet_size0 (hero_stack s1))
                && Qltb 0 (hero_stack s1)); cbn [snd];
        match goal with
        | |- bind ?c _ = _ -> _ =>
            destruct c; cbn [bind]; [| discriminate]
        end; intros H.
      * injection H as H1 _ _. elim (Ha H1).
      * injection H as H2 _. symmetry; exact H2.
Qed.

(** What [execute_action] does to pot and stacks when the size does not
    exceed the hero's stack and a CHECK or FOLD comes with size 0: the
    amounts written to the history are the amounts paid. *)
Lemma execute_action_paid (pick : Q) (s : State) (action : ActionType)
    (bet_size : Q) :
  bet_size <= hero_stack s ->
  (action_in action [CALL; BET; RAISE; ALL_IN] = false -> bet_size = 0) ->
  let s' := fst (execute_action pick s action bet_size) in
  exists resp amount,
    history s'
    = history s ++ [(HERO, action, bet_size); (VILLAIN, resp, amount)]
    /\ pot s' == pot s + bet_size + amount
    /\ hero_stack s' == hero_stack s - bet_size
    /\ villain_stack s' == villain_stack s - amount.
Proof.
  intros Hb Hz. unfold execute_action.
  match goal with
  | |- context [choices (opponent_response ?t action) pick] =>
      destruct (choices_response t action pick) as [resp [Hc _]];
      rewrite Hc
  end.
  cbv zeta.
  exists resp, (response_amount (apply_hero s action bet_size) resp bet_size).
  destruct action;
    try (rewrite (Hz eq_refl) in *);
    destruct resp; cbn -[pymin Qplus Qminus Qmult Qle];
    rewrite <- ?app_assoc, ?(pymin_keeps bet_size (hero_stack s) Hb);
    (split; [reflexivity |]); repeat split; ring.
Qed.

Lemma loop_pass_money (s : State) (ev : Q) (resp : ActionType)
    (s4 : State) :
  nonneg_state s -> loop_pass s ev resp s4 ->
  exists action bet_size amount,
    history s4
    = history s ++ [(HERO, action, bet_size); (VILLAIN, resp, amount)]
    /\ 0 <= bet_size /\ 0 <= amount
    /\ pot s4 == pot s + bet_size + amount
    /\ hero_stack s4 == hero_stack s - bet_size
    /\ villain_stack s4 == villain_stack s - amount.
Proof.
  intros Hn Hp.
  pose proof (loop_pass_nonneg s ev resp s4 Hp Hn) as Hn4.
  destruct Hp as [coin pick s1 action bet_size s3 Hst Hopt Hexe ->].
  assert (Hb : 0 <= bet_size <= hero_stack s).
  { destruct Hn as [Hpot [Hh [_ Hf]]].
    apply (optimal_action_size coin s (action, bet_size) ev Hpot Hh).
    - intros e He. exact (py_last_Forall _ _ _ Hf He).
    - rewrite Hopt. reflexivity. }
  assert (Hact : In action [CHECK; CALL; BET; RAISE]).
  { apply (optimal_action_actions coin s (action, bet_size) ev).
    rewrite Hopt. reflexivity. }
  destruct (same_table_optimal_action coin s) as [Tp [Th [Tv [Thi _]]]].
  rewrite Hopt in Tp, Th, Tv, Thi. cbn [fst] in Tp, Th, Tv, Thi.
  destruct (execute_action_paid pick
              (set_decision_evs (decision_evs s1 ++ [ev]) s1)
              action bet_size) as [resp' [amount [Eh [Ep [Ehs Evs]]]]].
  { cbn. rewrite Th. tauto. }
  { intros Hno. simpl in Hact.
    destruct Hact as [<- | [<- | [<- | [<- | []]]]]; try discriminate Hno.
    apply (optimal_action_check_size coin s bet_size ev).
    rewrite Hopt. reflexivity. }
  rewrite Hexe in Eh, Ep, Ehs, Evs. cbn [fst] in Eh, Ep, Ehs, Evs.
  cbn [history pot hero_stack villain_stack set_decision_evs]
    in Eh, Ep, Ehs, Evs.
  destruct (execute_action_shape pick
              (set_decision_evs (decision_evs s1 ++ [ev]) s1)
              action bet_size) as [resp2 [Hr [_ [Hh2 _]]]].
  rewrite Hexe in Hr, Hh2. cbn [fst snd] in Hr, Hh2.
  injection Hr as <-. rewrite Eh in Hh2.
  apply app_inv_head in Hh2. injection Hh2 as <- _.
  destruct (same_table_update_stage s3) as [Up [Uh [Uv [Uhi _]]]].
  exists action, bet_size, amount.
  rewrite Uhi, Up, Uh, Uv, Eh, Ep, Ehs, Evs, Thi, Tp, Th, Tv.
  split; [reflexivity |]. split; [tauto |]. split.
  - destruct Hn4 as [_ [_ [_ Hf4]]].
    rewrite Uhi, Eh in Hf4. apply Forall_app in Hf4.
    destruct Hf4 as [_ Hf4]. inversion Hf4 as [| x l _ Hl]; subst.
    inversion Hl; subst. assumption.
  - repeat split; reflexivity.
Qed.

(** Over the loop the pot does not shrink and the stacks do not grow. *)
Lemma hand_loop_money (draws : list (Q * Q)) (s : State)
    (t : Q) (c : Z) (s' : State) (t' : Q) (c' : Z) :
  nonneg_state s ->
  hand_loop draws s t c = Some (Stopped s' t' c') ->
  pot s <= pot s'
  /\ hero_stack s' <= hero_stack s
  /\ villain_stack s' <= villain_stack s.
Proof.
  intros Hn Hl. revert Hn.
  apply (hand_loop_related
           (fun s _ _ s' _ _ =>
              nonneg_state s ->
              pot s <= pot s'
              /\ hero_stack s' <= hero_stack s
              /\ villain_stack s' <= villain_stack s))
    with (draws := draws) (t := t) (c := c) (t' := t') (c' := c');
    [| | | | exact Hl].
  - intros s0 _ _ _ _. repeat split; lra.
  - intros s0 s1 _ _ Hf _.
    destruct (loop_fail_facts s0 s1 Hf) as [[Tp [Th [Tv _]]] _].
    rewrite Tp, Th, Tv. repeat split; lra.
  - intros s0 ev resp s4 g _ _ Hp _ Hn.
    destruct (loop_pass_money s0 ev resp s4 Hn Hp)
      as [a [b [amt [_ [Hb [Ha [Epot [Eh Ev]]]]]]]].
    cbn [pot hero_stack villain_stack set_stage].
    rewrite Epot, Eh, Ev. repeat split; lra.
  - intros s0 ev resp s4 _ _ s1 _ _ Hp _ _ Hrec Hn.
    destruct (loop_pass_money s0 ev resp s4 Hn Hp)
      as [a [b [amt [_ [Hb [Ha [Epot [Eh Ev]]]]]]]].
    destruct (Hrec (loop_pass_nonneg s0 ev resp s4 Hp Hn))
      as [R3 [R4 R5]].
    repeat split; lra.
Qed.

(** X24.  During the loop of [simulate_hand] neither stack ever grows and
    the pot never shrinks, for a start with non-negative pot, stacks and
    recorded amounts. *)
Theorem X24_stacks_only_shrink (draws : list (Q * Q)) (s : State)
    (t : Q) (c : Z) (s' : State) (t' : Q) (c' : Z) :
  nonneg_state s ->
  hand_loop draws s t c = Some (Stopped s' t' c') ->
  hero_stack s' <= hero_stack s
  /\ villain_stack s' <= villain_stack s
  /\ pot s <= pot s'.
Proof.
  intros Hn Hl.
  destruct (hand_loop_money draws s t c s' t' c' Hn Hl)
    as [H3 [H4 H5]].
  auto.
Qed.

Lemma scenario_A_nonneg : nonneg_state scenario_A.
Proof.
  unfold nonneg_state.
  split; [vm_compute; discriminate |].
  split; [vm_compute; discriminate |].
  split; [vm_compute; discriminate |].
  apply Forall_nil.
Qed.

Lemma X24_stacks_only_shrink_witness :
  exists s' t' c',
    hand_loop sample_draws scenario_A 0 0%Z = Some (Stopped s' t' c')
    /\ hero_stack s' <= hero_stack scenario_A
    /\ villain_stack s' <= villain_stack scenario_A
    /\ pot scenario_A <= pot s'.
Proof.
  destruct (hand_loop sample_draws scenario_A 0 0%Z) as [[s' t' c'] |] eqn:E;
    [| vm_compute in E; discriminate E].
  exists s', t', c'. split; [reflexivity |].
  exact (X24_stacks_only_shrink sample_draws scenario_A 0 0%Z s' t' c'
           scenario_A_nonneg E).
Defined.

(** ** Every hand ends *)







